(** * sc2reader events: a shallow embedding of [sc2reader/events/tracker.py]
    and [sc2reader/events/message.py]

    Python integers are unbounded and are modelled as [Z]; [<<] and [|] are
    [Z.shiftl] and [Z.lor], [%] with a positive modulus is [Z.modulo].
    Python floats are IEEE 754 binary64 values and are modelled with the
    Standard Library's executable specification of binary64 ([spec_float]).
    A [str] is the list of its code points; class names are [string]s.
    A constructor either returns its object or raises: [result]. The binds of
    a constructor follow the statements of its [__init__] in order, so the
    exception a malformed record raises is the first one Python meets. *)

From Stdlib Require Import ZArith Lia Strings.String Strings.Byte Floats.SpecFloat.
From stdpp Require Import base option list.

Local Open Scope Z_scope.

(** ** Exceptions and results *)

(** The exception classes met on the modelled paths. [MalformedRecord] is the
    error class of the specification's taxonomy; no statement of tracker.py
    raises it. *)
Inductive exn : Set :=
  | IndexError
  | KeyError
  | TypeError
  | AttributeError
  | UnicodeDecodeError
  | OverflowError
  | ValueError
  | ZeroDivisionError
  | MalformedRecord.

Inductive result (A : Type) : Type :=
  | Ok (a : A)
  | Raise (e : exn).
Arguments Ok {A} a.
Arguments Raise {A} e.

#[global] Instance result_ret : MRet result := fun A a => Ok a.
#[global] Instance result_bind : MBind result :=
  fun A B f m => match m with Ok a => f a | Raise e => Raise e end.

(** ** Record fields as the tracker decoder delivers them

    The values a decoded record holds: integers, byte strings, arrays of
    integers and [None] for an optional field that is absent. Every operator
    below is given on all four. *)
Inductive field : Type :=
  | FInt (z : Z)
  | FBytes (b : list byte)
  | FInts (l : list Z)
  | FNone.

Definition byte_to_Z (b : byte) : Z := Z.of_N (Byte.to_N b).

(** [seq[i]] for a list and an index [i >= 0]. *)
Definition getitem {A : Type} (l : list A) (i : nat) : result A :=
  match l !! i with
  | Some a => Ok a
  | None => Raise IndexError
  end.

(** [data[i]] for a decoded record. The reader hands a record to a
    constructor as a dict keyed by field number, [{0: ..., 1: ..., ...}]; the
    model keeps the list of its values in key order, and reading a field the
    record does not have raises KeyError. *)
Definition getfield {A : Type} (data : list A) (i : nat) : result A :=
  match data !! i with
  | Some a => Ok a
  | None => Raise KeyError
  end.

(** [v[i]] for a field value: an int and [None] are not subscriptable, a
    byte string yields the byte as an int. *)
Definition subscript (v : field) (i : nat) : result Z :=
  match v with
  | FInt _ | FNone => Raise TypeError
  | FBytes b => getitem (byte_to_Z <$> b) i
  | FInts l => getitem l i
  end.

(** [len(v)] *)
Definition py_len (v : field) : result nat :=
  match v with
  | FInt _ | FNone => Raise TypeError
  | FBytes b => Ok (length b)
  | FInts l => Ok (length l)
  end.

(** [a << n] for an int literal [n >= 0] *)
Definition py_lshift (a : field) (n : Z) : result Z :=
  match a with
  | FInt z => Ok (Z.shiftl z n)
  | _ => Raise TypeError
  end.

(** [a | b] for an int [a] *)
Definition py_or (a : Z) (b : field) : result Z :=
  match b with
  | FInt z => Ok (Z.lor a z)
  | _ => Raise TypeError
  end.

(** [v * n] for an int [n]: product of ints, repetition of a sequence;
    [None] has no product. *)
Definition py_mul (v : field) (n : Z) : result field :=
  match v with
  | FInt z => Ok (FInt (z * n))
  | FBytes b => Ok (FBytes (mjoin (replicate (Z.to_nat n) b)))
  | FInts l => Ok (FInts (mjoin (replicate (Z.to_nat n) l)))
  | FNone => Raise TypeError
  end.

(** [v += d] for an int [d]: a byte string cannot be concatenated with an
    int and a list cannot be extended by one. *)
Definition py_iadd (v : field) (d : Z) : result field :=
  match v with
  | FInt z => Ok (FInt (z + d))
  | _ => Raise TypeError
  end.

(** Truth value of a field in [if v:]. *)
Definition truthy (v : field) : bool :=
  match v with
  | FInt z => negb (z =? 0)
  | FBytes b => negb (Nat.eqb (length b) 0)
  | FInts l => negb (Nat.eqb (length l) 0)
  | FNone => false
  end.

(** [clamp = functools.partial(max, 0)] *)
Definition clamp (x : Z) : Z := Z.max 0 x.

(** [range(start, stop, step)] for [step > 0]: [start, start + step, ...],
    every element below [stop]. *)
Definition py_range (start stop step : nat) : list nat :=
  (fun j => start + j * step)%nat <$> seq 0 ((stop - start + (step - 1)) / step)%nat.

(** ** Python floats *)

Definition f64_prec : Z := 53.
Definition f64_emax : Z := 1024.

(** Conversion of an [int] operand to [float]: correctly rounded (ties to
    even); OverflowError when the integer is too large for a finite double. *)
Definition float_of_int (z : Z) : result spec_float :=
  match binary_normalize f64_prec f64_emax z 0 false with
  | S754_infinity _ => Raise OverflowError
  | f => Ok f
  end.

(** [x / y] on floats. *)
Definition float_truediv (x y : spec_float) : result spec_float :=
  match y with
  | S754_zero _ => Raise ZeroDivisionError
  | _ => Ok (SFdiv f64_prec f64_emax x y)
  end.

(** [n / y] for an [int] [n] and a [float] [y]. *)
Definition int_truediv_float (n : Z) (y : spec_float) : result spec_float :=
  x ← float_of_int n; float_truediv x y.

(** [int(x)] for a float: truncation toward zero. *)
Definition py_int (x : spec_float) : result Z :=
  match x with
  | S754_zero _ => Ok 0
  | S754_infinity _ => Raise OverflowError
  | S754_nan => Raise ValueError
  | S754_finite s m e => Ok (cond_Zopp s (Z.shiftl (Zpos m) e))
  end.

(** The literal [22.4]: the double nearest to 224/10, 0x1.6666666666666p+4. *)
Definition f22_4 : spec_float := S754_finite false 6305039478318694 (-48).

(** The literal [4096.0] = 2^12. *)
Definition f4096 : spec_float := S754_finite false 4503599627370496 (-40).

(** ** [bytes.decode("utf8")]

    Strict UTF-8 decoding to the sequence of code points of the resulting
    [str]: shortest forms only, no surrogates, nothing above U+10FFFF. *)
Definition cont (b : byte) : option Z :=
  let n := byte_to_Z b in
  if (128 <=? n) && (n <=? 191) then Some (n - 128) else None.

Fixpoint utf8_decode (bs : list byte) : result (list Z) :=
  match bs with
  | [] => Ok []
  | b0 :: r0 =>
    let n0 := byte_to_Z b0 in
    if n0 <? 128 then cs ← utf8_decode r0; Ok (n0 :: cs)
    else if (194 <=? n0) && (n0 <=? 223) then
      match r0 with
      | b1 :: r1 =>
        match cont b1 with
        | Some c1 => cs ← utf8_decode r1; Ok (((n0 - 192) * 64 + c1) :: cs)
        | None => Raise UnicodeDecodeError
        end
      | _ => Raise UnicodeDecodeError
      end
    else if (224 <=? n0) && (n0 <=? 239) then
      match r0 with
      | b1 :: b2 :: r2 =>
        match cont b1, cont b2 with
        | Some c1, Some c2 =>
          let cp := (n0 - 224) * 4096 + c1 * 64 + c2 in
          if (cp <? 2048) || ((55296 <=? cp) && (cp <=? 57343))
          then Raise UnicodeDecodeError
          else cs ← utf8_decode r2; Ok (cp :: cs)
        | _, _ => Raise UnicodeDecodeError
        end
      | _ => Raise UnicodeDecodeError
      end
    else if (240 <=? n0) && (n0 <=? 244) then
      match r0 with
      | b1 :: b2 :: b3 :: r3 =>
        match cont b1, cont b2, cont b3 with
        | Some c1, Some c2, Some c3 =>
          let cp := (n0 - 240) * 262144 + c1 * 4096 + c2 * 64 + c3 in
          if (cp <? 65536) || (1114111 <? cp)
          then Raise UnicodeDecodeError
          else cs ← utf8_decode r3; Ok (cp :: cs)
        | _, _, _ => Raise UnicodeDecodeError
        end
      | _ => Raise UnicodeDecodeError
      end
    else Raise UnicodeDecodeError
  end.

(** [v.decode("utf8")]: only a byte string has the method. *)
Definition decode_utf8 (v : field) : result (list Z) :=
  match v with
  | FBytes b => utf8_decode b
  | _ => Raise AttributeError
  end.

(** ** The objects the resolver attaches to events

    Only the attributes tracker.py reads. *)
Record Player : Type := { Player_pid : Z }.
Record Unit : Type := {
  Unit_owner : Player;
  Unit_name : string;
  Unit_type : Z;
  Unit_is_army : bool;
  Unit_is_building : bool
}.

(** ** [class TrackerEvent] *)
Module TrackerEvent.

Record t : Type := {
  frame : Z;
  second : Z;
  name : string
}.

(** [__init__(self, frames)]; [cls] is [self.__class__.__name__]. *)
Definition init (cls : string) (frames : Z) : result t :=
  let frame := frames mod 2 ^ 32 in
  q ← int_truediv_float frame f22_4;
  second ← py_int q;
  Ok {| frame := frame; second := second; name := cls |}.

End TrackerEvent.

(** ** [class PlayerStatsEvent] *)
Module PlayerStatsEvent.

Record t : Type := {
  base : TrackerEvent.t;
  pid : field;
  player : option Player;
  stats : field;
  minerals_current : Z;
  vespene_current : Z;
  minerals_collection_rate : Z;
  vespene_collection_rate : Z;
  workers_active_count : Z;
  minerals_used_in_progress_army : Z;
  minerals_used_in_progress_economy : Z;
  minerals_used_in_progress_technology : Z;
  minerals_used_in_progress : Z;
  vespene_used_in_progress_army : Z;
  vespene_used_in_progress_economy : Z;
  vespene_used_in_progress_technology : Z;
  vespene_used_in_progress : Z;
  resources_used_in_progress : Z;
  minerals_used_current_army : Z;
  minerals_used_current_economy : Z;
  minerals_used_current_technology : Z;
  minerals_used_current : Z;
  vespene_used_current_army : Z;
  vespene_used_current_economy : Z;
  vespene_used_current_technology : Z;
  vespene_used_current : Z;
  resources_used_current : Z;
  minerals_lost_army : Z;
  minerals_lost_economy : Z;
  minerals_lost_technology : Z;
  minerals_lost : Z;
  vespene_lost_army : Z;
  vespene_lost_economy : Z;
  vespene_lost_technology : Z;
  vespene_lost : Z;
  resources_lost : Z;
  minerals_killed_army : Z;
  minerals_killed_economy : Z;
  minerals_killed_technology : Z;
  minerals_killed : Z;
  vespene_killed_army : Z;
  vespene_killed_economy : Z;
  vespene_killed_technology : Z;
  vespene_killed : Z;
  resources_killed : Z;
  food_used : spec_float;
  food_made : spec_float;
  minerals_used_active_forces : Z;
  vespene_used_active_forces : Z;
  ff_minerals_lost_army : option Z;
  ff_minerals_lost_economy : option Z;
  ff_minerals_lost_technology : option Z;
  ff_vespene_lost_army : option Z;
  ff_vespene_lost_economy : option Z;
  ff_vespene_lost_technology : option Z
}.

(** [clamp(self.stats[i])] *)
Definition stat (stats : field) (i : nat) : result Z :=
  s ← subscript stats i; Ok (clamp s).

(** [clamp(self.stats[i]) if build >= 26490 else None]: the slot is read
    only when the condition holds. *)
Definition ff_stat (stats : field) (i : nat) (build : Z) : result (option Z) :=
  if 26490 <=? build then s ← stat stats i; Ok (Some s) else Ok None.

(** [clamp(self.stats[i]) / 4096.0] *)
Definition food (stats : field) (i : nat) : result spec_float :=
  s ← stat stats i; int_truediv_float s f4096.

Definition init (frames : Z) (data : list field) (build : Z) : result t :=
  base ← TrackerEvent.init "PlayerStatsEvent" frames;
  pid ← getfield data 0;
  stats ← getfield data 1;
  s0 ← stat stats 0;
  s1 ← stat stats 1;
  s2 ← stat stats 2;
  s3 ← stat stats 3;
  s4 ← stat stats 4;
  s5 ← stat stats 5;
  s6 ← stat stats 6;
  s7 ← stat stats 7;
  let minerals_used_in_progress := s5 + s6 + s7 in
  s8 ← stat stats 8;
  s9 ← stat stats 9;
  s10 ← stat stats 10;
  let vespene_used_in_progress := s8 + s9 + s10 in
  s11 ← stat stats 11;
  s12 ← stat stats 12;
  s13 ← stat stats 13;
  let minerals_used_current := s11 + s12 + s13 in
  s14 ← stat stats 14;
  s15 ← stat stats 15;
  s16 ← stat stats 16;
  let vespene_used_current := s14 + s15 + s16 in
  s17 ← stat stats 17;
  s18 ← stat stats 18;
  s19 ← stat stats 19;
  let minerals_lost := s17 + s18 + s19 in
  s20 ← stat stats 20;
  s21 ← stat stats 21;
  s22 ← stat stats 22;
  let vespene_lost := s20 + s21 + s22 in
  s23 ← stat stats 23;
  s24 ← stat stats 24;
  s25 ← stat stats 25;
  let minerals_killed := s23 + s24 + s25 in
  s26 ← stat stats 26;
  s27 ← stat stats 27;
  s28 ← stat stats 28;
  let vespene_killed := s26 + s27 + s28 in
  food_used ← food stats 29;
  food_made ← food stats 30;
  s31 ← stat stats 31;
  s32 ← stat stats 32;
  ff33 ← ff_stat stats 33 build;
  ff34 ← ff_stat stats 34 build;
  ff35 ← ff_stat stats 35 build;
  ff36 ← ff_stat stats 36 build;
  ff37 ← ff_stat stats 37 build;
  ff38 ← ff_stat stats 38 build;
  Ok {|
    base := base;
    pid := pid;
    player := None;
    stats := stats;
    minerals_current := s0;
    vespene_current := s1;
    minerals_collection_rate := s2;
    vespene_collection_rate := s3;
    workers_active_count := s4;
    minerals_used_in_progress_army := s5;
    minerals_used_in_progress_economy := s6;
    minerals_used_in_progress_technology := s7;
    minerals_used_in_progress := minerals_used_in_progress;
    vespene_used_in_progress_army := s8;
    vespene_used_in_progress_economy := s9;
    vespene_used_in_progress_technology := s10;
    vespene_used_in_progress := vespene_used_in_progress;
    resources_used_in_progress := minerals_used_in_progress + vespene_used_in_progress;
    minerals_used_current_army := s11;
    minerals_used_current_economy := s12;
    minerals_used_current_technology := s13;
    minerals_used_current := minerals_used_current;
    vespene_used_current_army := s14;
    vespene_used_current_economy := s15;
    vespene_used_current_technology := s16;
    vespene_used_current := vespene_used_current;
    resources_used_current := minerals_used_current + vespene_used_current;
    minerals_lost_army := s17;
    minerals_lost_economy := s18;
    minerals_lost_technology := s19;
    minerals_lost := minerals_lost;
    vespene_lost_army := s20;
    vespene_lost_economy := s21;
    vespene_lost_technology := s22;
    vespene_lost := vespene_lost;
    resources_lost := minerals_lost + vespene_lost;
    minerals_killed_army := s23;
    minerals_killed_economy := s24;
    minerals_killed_technology := s25;
    minerals_killed := minerals_killed;
    vespene_killed_army := s26;
    vespene_killed_economy := s27;
    vespene_killed_technology := s28;
    vespene_killed := vespene_killed;
    resources_killed := minerals_killed + vespene_killed;
    food_used := food_used;
    food_made := food_made;
    minerals_used_active_forces := s31;
    vespene_used_active_forces := s32;
    ff_minerals_lost_army := ff33;
    ff_minerals_lost_economy := ff34;
    ff_minerals_lost_technology := ff35;
    ff_vespene_lost_army := ff36;
    ff_vespene_lost_economy := ff37;
    ff_vespene_lost_technology := ff38
  |}.

End PlayerStatsEvent.

(** ** [class UnitBornEvent] *)
Module UnitBornEvent.

Record t : Type := {
  base : TrackerEvent.t;
  unit_id_index : field;
  unit_id_recycle : field;
  unit_id : Z;
  unit : option Unit;
  unit_type_name : list Z;
  control_pid : field;
  upkeep_pid : field;
  unit_upkeeper : option Player;
  unit_controller : option Player;
  x : field;
  y : field;
  location : field * field
}.

Definition init (frames : Z) (data : list field) (build : Z) : result t :=
  base ← TrackerEvent.init "UnitBornEvent" frames;
  unit_id_index ← getfield data 0;
  unit_id_recycle ← getfield data 1;
  shifted ← py_lshift unit_id_index 18;
  unit_id ← py_or shifted unit_id_recycle;
  d2 ← getfield data 2;
  unit_type_name ← decode_utf8 d2;
  control_pid ← getfield data 3;
  upkeep_pid ← getfield data 4;
  x ← getfield data 5;
  y ← getfield data 6;
  '(x, y) ←
    (if build <? 27950 then x4 ← py_mul x 4; y4 ← py_mul y 4; Ok (x4, y4)
     else Ok (x, y));
  Ok {|
    base := base;
    unit_id_index := unit_id_index;
    unit_id_recycle := unit_id_recycle;
    unit_id := unit_id;
    unit := None;
    unit_type_name := unit_type_name;
    control_pid := control_pid;
    upkeep_pid := upkeep_pid;
    unit_upkeeper := None;
    unit_controller := None;
    x := x;
    y := y;
    location := (x, y)
  |}.

(** [@property player] *)
Definition player (self : t) : option Player := unit_controller self.

(** [@property pid] *)
Definition pid (self : t) : field := control_pid self.

(** [isCounted]: [self.unit.type not in [845]] *)
Definition isCounted (self : t) : result bool :=
  match unit self with
  | Some u => Ok (negb (Unit_type u =? 845))
  | None => Raise AttributeError
  end.

End UnitBornEvent.

(** ** [class UnitDiedEvent] *)
Module UnitDiedEvent.

Record t : Type := {
  base : TrackerEvent.t;
  unit_id_index : field;
  unit_id_recycle : field;
  unit_id : Z;
  unit : option Unit;
  killer_pid : field;
  killer : option Player;
  killing_player_id : field;
  killing_player : option Player;
  x : field;
  y : field;
  location : field * field;
  killing_unit_index : option field;
  killing_unit_recycle : option field;
  killing_unit_id : option Z;
  killing_unit : option Unit
}.

(** The [else] branch of the build test: the killer's identity. *)
Definition killer_fields (data : list field)
  : result (option field * option field * option Z) :=
  killing_unit_index ← getfield data 5;
  killing_unit_recycle ← getfield data 6;
  if truthy killing_unit_index then
    shifted ← py_lshift killing_unit_index 18;
    killing_unit_id ← py_or shifted killing_unit_recycle;
    Ok (Some killing_unit_index, Some killing_unit_recycle, Some killing_unit_id)
  else Ok (Some killing_unit_index, Some killing_unit_recycle, None).

Definition init (frames : Z) (data : list field) (build : Z) : result t :=
  base ← TrackerEvent.init "UnitDiedEvent" frames;
  unit_id_index ← getfield data 0;
  unit_id_recycle ← getfield data 1;
  shifted ← py_lshift unit_id_index 18;
  unit_id ← py_or shifted unit_id_recycle;
  killer_pid ← getfield data 2;
  killing_player_id ← getfield data 2;
  x ← getfield data 3;
  y ← getfield data 4;
  '(x, y, killing) ←
    (if build <? 27950 then
       x4 ← py_mul x 4; y4 ← py_mul y 4; Ok (x4, y4, (None, None, None))
     else k ← killer_fields data; Ok (x, y, k));
  let '(killing_unit_index, killing_unit_recycle, killing_unit_id) := killing in
  Ok {|
    base := base;
    unit_id_index := unit_id_index;
    unit_id_recycle := unit_id_recycle;
    unit_id := unit_id;
    unit := None;
    killer_pid := killer_pid;
    killer := None;
    killing_player_id := killing_player_id;
    killing_player := None;
    x := x;
    y := y;
    location := (x, y);
    killing_unit_index := killing_unit_index;
    killing_unit_recycle := killing_unit_recycle;
    killing_unit_id := killing_unit_id;
    killing_unit := None
  |}.

(** [@property player]: [self.unit.owner]; [None] has no attribute. *)
Definition player (self : t) : result Player :=
  match unit self with
  | Some u => Ok (Unit_owner u)
  | None => Raise AttributeError
  end.

(** [@property pid]: [self.unit.owner.pid] *)
Definition pid (self : t) : result Z :=
  owner ← player self; Ok (Player_pid owner).

(** [name in names] for a list of string literals *)
Definition name_in (name : string) (names : list string) : bool :=
  existsb (String.eqb name) names.

(** [countableUnitDeath]:
    [(unit.is_army or unit.name in [...]) and unit.name not in ["Broodling"]] *)
Definition countableUnitDeath (self : t) : result bool :=
  match unit self with
  | Some u =>
      Ok ((Unit_is_army u
           || name_in (Unit_name u) ["LurkerBurrowed"; "Drone"; "Probe"; "SCV"]%string)
          && negb (name_in (Unit_name u) ["Broodling"%string]))
  | None => Raise AttributeError
  end.

Definition isCounted (self : t) : result bool := countableUnitDeath self.

Definition buildingDeath (self : t) : result bool :=
  match unit self with
  | Some u => Ok (Unit_is_building u)
  | None => Raise AttributeError
  end.

End UnitDiedEvent.

(** ** [class UnitOwnerChangeEvent] *)
Module UnitOwnerChangeEvent.

Record t : Type := {
  base : TrackerEvent.t;
  unit_id_index : field;
  unit_id_recycle : field;
  unit_id : Z;
  unit : option Unit;
  control_pid : field;
  upkeep_pid : field;
  unit_upkeeper : option Player;
  unit_controller : option Player
}.

Definition init (frames : Z) (data : list field) (build : Z) : result t :=
  base ← TrackerEvent.init "UnitOwnerChangeEvent" frames;
  unit_id_index ← getfield data 0;
  unit_id_recycle ← getfield data 1;
  shifted ← py_lshift unit_id_index 18;
  unit_id ← py_or shifted unit_id_recycle;
  control_pid ← getfield data 2;
  upkeep_pid ← getfield data 3;
  Ok {|
    base := base;
    unit_id_index := unit_id_index;
    unit_id_recycle := unit_id_recycle;
    unit_id := unit_id;
    unit := None;
    control_pid := control_pid;
    upkeep_pid := upkeep_pid;
    unit_upkeeper := None;
    unit_controller := None
  |}.

End UnitOwnerChangeEvent.

(** ** [class UnitTypeChangeEvent] *)
Module UnitTypeChangeEvent.

Record t : Type := {
  base : TrackerEvent.t;
  unit_id_index : field;
  unit_id_recycle : field;
  unit_id : Z;
  unit : option Unit;
  unit_type_name : list Z
}.

Definition init (frames : Z) (data : list field) (build : Z) : result t :=
  base ← TrackerEvent.init "UnitTypeChangeEvent" frames;
  unit_id_index ← getfield data 0;
  unit_id_recycle ← getfield data 1;
  shifted ← py_lshift unit_id_index 18;
  unit_id ← py_or shifted unit_id_recycle;
  d2 ← getfield data 2;
  unit_type_name ← decode_utf8 d2;
  Ok {|
    base := base;
    unit_id_index := unit_id_index;
    unit_id_recycle := unit_id_recycle;
    unit_id := unit_id;
    unit := None;
    unit_type_name := unit_type_name
  |}.

(** [@property pid]: [self.unit.owner.pid] *)
Definition pid (self : t) : result Z :=
  match unit self with
  | Some u => Ok (Player_pid (Unit_owner u))
  | None => Raise AttributeError
  end.

End UnitTypeChangeEvent.

(** ** [class UnitInitEvent] *)
Module UnitInitEvent.

Record t : Type := {
  base : TrackerEvent.t;
  unit_id_index : field;
  unit_id_recycle : field;
  unit_id : Z;
  unit : option Unit;
  unit_type_name : list Z;
  control_pid : field;
  upkeep_pid : field;
  unit_upkeeper : option Player;
  unit_controller : option Player;
  x : field;
  y : field;
  location : field * field
}.

Definition init (frames : Z) (data : list field) (build : Z) : result t :=
  base ← TrackerEvent.init "UnitInitEvent" frames;
  unit_id_index ← getfield data 0;
  unit_id_recycle ← getfield data 1;
  shifted ← py_lshift unit_id_index 18;
  unit_id ← py_or shifted unit_id_recycle;
  d2 ← getfield data 2;
  unit_type_name ← decode_utf8 d2;
  control_pid ← getfield data 3;
  upkeep_pid ← getfield data 4;
  x ← getfield data 5;
  y ← getfield data 6;
  '(x, y) ←
    (if build <? 27950 then x4 ← py_mul x 4; y4 ← py_mul y 4; Ok (x4, y4)
     else Ok (x, y));
  Ok {|
    base := base;
    unit_id_index := unit_id_index;
    unit_id_recycle := unit_id_recycle;
    unit_id := unit_id;
    unit := None;
    unit_type_name := unit_type_name;
    control_pid := control_pid;
    upkeep_pid := upkeep_pid;
    unit_upkeeper := None;
    unit_controller := None;
    x := x;
    y := y;
    location := (x, y)
  |}.

(** [@property player] *)
Definition player (self : t) : option Player := unit_upkeeper self.

(** [@property pid] *)
Definition pid (self : t) : field := upkeep_pid self.

Definition isCounted (self : t) : bool := true.

End UnitInitEvent.

(** ** [class UnitDoneEvent] *)
Module UnitDoneEvent.

Record t : Type := {
  base : TrackerEvent.t;
  unit_id_index : field;
  unit_id_recycle : field;
  unit_id : Z;
  unit : option Unit
}.

Definition init (frames : Z) (data : list field) (build : Z) : result t :=
  base ← TrackerEvent.init "UnitDoneEvent" frames;
  unit_id_index ← getfield data 0;
  unit_id_recycle ← getfield data 1;
  shifted ← py_lshift unit_id_index 18;
  unit_id ← py_or shifted unit_id_recycle;
  Ok {|
    base := base;
    unit_id_index := unit_id_index;
    unit_id_recycle := unit_id_recycle;
    unit_id := unit_id;
    unit := None
  |}.

(** [@property player]: [self.unit.owner] *)
Definition player (self : t) : result Player :=
  match unit self with
  | Some u => Ok (Unit_owner u)
  | None => Raise AttributeError
  end.

(** [@property pid]: [self.unit.owner.pid] *)
Definition pid (self : t) : result Z :=
  owner ← player self; Ok (Player_pid owner).

End UnitDoneEvent.

(** ** [class UnitPositionsEvent] *)
Module UnitPositionsEvent.

Record t : Type := {
  base : TrackerEvent.t;
  first_unit_index : field;
  items : field;
  units : list (Z * (Z * Z));
  positions : list (field * (Z * Z))
}.

(** One pass of the loop body at index [i]. *)
Definition step (build : Z) (items : field) (i : nat)
    (st : field * list (field * (Z * Z))) : result (field * list (field * (Z * Z))) :=
  let '(unit_index, positions) := st in
  d ← subscript items i;
  unit_index ← py_iadd unit_index d;
  x ← subscript items (i + 1);
  y ← subscript items (i + 2);
  let '(x, y) := if build <? 27950 then (x * 4, y * 4) else (x, y) in
  Ok (unit_index, positions ++ [(unit_index, (x, y))]).

(** [for i in range(0, len(self.items), 3): ...] *)
Fixpoint loop (build : Z) (items : field) (idxs : list nat)
    (st : field * list (field * (Z * Z))) : result (field * list (field * (Z * Z))) :=
  match idxs with
  | [] => Ok st
  | i :: rest => st' ← step build items i st; loop build items rest st'
  end.

Definition init (frames : Z) (data : list field) (build : Z) : result t :=
  base ← TrackerEvent.init "UnitPositionsEvent" frames;
  first_unit_index ← getfield data 0;
  items ← getfield data 1;
  n ← py_len items;
  st ← loop build items (py_range 0 n 3) (first_unit_index, []);
  Ok {|
    base := base;
    first_unit_index := first_unit_index;
    items := items;
    units := [];
    positions := snd st
  |}.

(** [@property player] *)
Definition player (self : t) : Z := -1.

(** [@property pid] *)
Definition pid (self : t) : Z := -1.

End UnitPositionsEvent.

(** ** [class PlayerSetupEvent] *)
Module PlayerSetupEvent.

Record t : Type := {
  base : TrackerEvent.t;
  pid : field;
  type : field;
  uid : field;
  sid : field
}.

Definition init (frames : Z) (data : list field) (build : Z) : result t :=
  base ← TrackerEvent.init "PlayerSetupEvent" frames;
  pid ← getfield data 0;
  type ← getfield data 1;
  uid ← getfield data 2;
  sid ← getfield data 3;
  Ok {| base := base; pid := pid; type := type; uid := uid; sid := sid |}.

End PlayerSetupEvent.

(** ** [class UpgradeCompleteEvent] *)
Module UpgradeCompleteEvent.

Record t : Type := {
  base : TrackerEvent.t;
  pid : field;
  player : option Player;
  upgrade_type_name : list Z;
  count : field
}.

Definition init (frames : Z) (data : list field) (build : Z) : result t :=
  base ← TrackerEvent.init "UpgradeCompleteEvent" frames;
  pid ← getfield data 0;
  d1 ← getfield data 1;
  upgrade_type_name ← decode_utf8 d1;
  count ← getfield data 2;
  Ok {|
    base := base;
    pid := pid;
    player := None;
    upgrade_type_name := upgrade_type_name;
    count := count
  |}.

End UpgradeCompleteEvent.

(** * Message events: [sc2reader/events/message.py] *)

(** [v == n] for an int literal [n]: false for a value that is not an int. *)
Definition py_eq_int (v : field) (n : Z) : bool :=
  match v with
  | FInt z => z =? n
  | _ => false
  end.

(** ** [class MessageEvent] *)
Module MessageEvent.

Record t : Type := {
  pid : field;
  frame : Z;
  second : spec_float;
  name : string
}.

(** [__init__(self, frame, pid)] for an int [frame]; [cls] is
    [self.__class__.__name__]. *)
Definition init (cls : string) (frame : Z) (pid : field) : result t :=
  second ← int_truediv_float frame f22_4;
  Ok {| pid := pid; frame := frame; second := second; name := cls |}.

End MessageEvent.

(** ** [class ChatEvent] *)
Module ChatEvent.

Record t : Type := {
  base : MessageEvent.t;
  target : field;
  text : list Z;
  to_all : bool;
  to_allies : bool;
  to_observers : bool
}.

Definition init (frame : Z) (pid target : field) (text : list Z) : result t :=
  base ← MessageEvent.init "ChatEvent" frame pid;
  Ok {|
    base := base;
    target := target;
    text := text;
    to_all := py_eq_int target 0;
    to_allies := py_eq_int target 2;
    to_observers := py_eq_int target 4
  |}.

End ChatEvent.

(** ** [class ProgressEvent] *)
Module ProgressEvent.

Record t : Type := {
  base : MessageEvent.t;
  progress : field
}.

Definition init (frame : Z) (pid progress : field) : result t :=
  base ← MessageEvent.init "ProgressEvent" frame pid;
  Ok {| base := base; progress := progress |}.

End ProgressEvent.

(** ** [class PingEvent] *)
Module PingEvent.

Record t : Type := {
  base : MessageEvent.t;
  target : field;
  to_all : bool;
  to_allies : bool;
  to_observers : bool;
  x : field;
  y : field;
  location : field * field
}.

Definition init (frame : Z) (pid target x y : field) : result t :=
  base ← MessageEvent.init "PingEvent" frame pid;
  Ok {|
    base := base;
    target := target;
    to_all := py_eq_int target 0;
    to_allies := py_eq_int target 2;
    to_observers := py_eq_int target 4;
    x := x;
    y := y;
    location := (x, y)
  |}.

End PingEvent.

(** ** The unit identity codec *)

(** Modelled from the spec: tracker.py only composes unit ids (the
    [index << 18 | recycle] of the constructors above); the inverse is the
    specification's [decode(id) = (id >> 18, id & 0x3FFFF)]. *)
Definition decode_unit_id (id : Z) : Z * Z := (Z.shiftr id 18, Z.land id 262143).

(** [l[i]] where the element exists, 0 where it does not; used in statements
    only, the constructors read with [getitem] and [subscript]. *)
Definition slot (l : list Z) (i : nat) : Z := nth i l 0.

(** ** Reading the position list

    The integers a sequence field holds, the sum of the index deltas of the
    first [n] windows of a flat [index_delta, x, y] sequence, and the entry
    the decoder emits for window [j]. *)
Definition elems (v : field) : list Z :=
  match v with
  | FInt _ | FNone => []
  | FBytes b => byte_to_Z <$> b
  | FInts l => l
  end.

Fixpoint delta_sum (items : list Z) (n : nat) : Z :=
  match n with
  | O => 0
  | S j => delta_sum items j + slot items (3 * j)%nat
  end.

Definition entry (build first : Z) (items : list Z) (j : nat) : field * (Z * Z) :=
  let scale := if build <? 27950 then 4 else 1 in
  (FInt (first + delta_sum items (S j)),
   (slot items (3 * j + 1)%nat * scale, slot items (3 * j + 2)%nat * scale)).

(** ** Auxiliary definitions for the binary64 proofs *)

(** The last step of [binary_round_aux]: a rounded mantissa that reached 2^53
    is shifted once more. *)
Definition renorm (m1 e : Z) : spec_float :=
  let '(mrs, e') := shr_fexp f64_prec f64_emax m1 e loc_Exact in
  match shr_m mrs with
  | Z0 => S754_zero false
  | Zpos m => if e' <=? f64_emax - f64_prec then S754_finite false m e' else S754_infinity false
  | Zneg _ => S754_nan
  end.

(** The mantissa of the literal [22.4]. *)
Definition M22_4 : Z := 6305039478318694.

(** ** Records the unit constructors accept

    The shape [UnitBornEvent.__init__] and [UnitInitEvent.__init__] read:
    integer identity fields, a type name that decodes, both owner fields and
    integer coordinates [x], [y] in fields 5 and 6. *)
Definition born_record (data : list field) (index recycle x y : Z) : Prop :=
  data !! 0%nat = Some (FInt index) /\
  data !! 1%nat = Some (FInt recycle) /\
  (exists d2 name, data !! 2%nat = Some d2 /\ decode_utf8 d2 = Ok name) /\
  is_Some (data !! 3%nat) /\
  is_Some (data !! 4%nat) /\
  data !! 5%nat = Some (FInt x) /\
  data !! 6%nat = Some (FInt y).

(** The shape [UnitDiedEvent.__init__] reads: integer identity fields, the
    killer's player id, integer coordinates [x], [y] in fields 3 and 4 and,
    from build 27950 on, the two killer fields, which are integers when the
    killer index is truthy. *)
Definition died_record (build : Z) (data : list field) (index recycle x y : Z) : Prop :=
  data !! 0%nat = Some (FInt index) /\
  data !! 1%nat = Some (FInt recycle) /\
  is_Some (data !! 2%nat) /\
  data !! 3%nat = Some (FInt x) /\
  data !! 4%nat = Some (FInt y) /\
  (27950 <= build ->
   exists k r, data !! 5%nat = Some k /\ data !! 6%nat = Some r /\
     (truthy k = true -> exists ki kr, k = FInt ki /\ r = FInt kr)).

(** ** Sample records *)

Definition sample_born : list field :=
  [FInt 5; FInt 7; FBytes [x4d; x61; x72; x69; x6e; x65]; FInt 1; FInt 2; FInt 10; FInt 20].

Definition sample_died : list field :=
  [FInt 5; FInt 7; FInt 2; FInt 10; FInt 20; FInt 9; FInt 3].

Definition sample_done : list field := [FInt 5; FInt 7].

Definition sample_owner_change : list field := [FInt 5; FInt 7; FInt 1; FInt 2].

Definition sample_type_change : list field :=
  [FInt 5; FInt 7; FBytes [x4c; x61; x69; x72]].


(** ** Auxiliary definitions for the statistics proofs *)

(** The double with the same sign and mantissa and the exponent lowered by
    [n]: the value divided by 2^n. *)
Definition lower_exponent (n : Z) (x : spec_float) : spec_float :=
  match x with
  | S754_finite s m e => S754_finite s m (e - n)
  | _ => x
  end.

(** The integer-valued fields of a player-stats event. *)
Definition numeric_fields (e : PlayerStatsEvent.t) : list Z :=
  [PlayerStatsEvent.minerals_current e;
   PlayerStatsEvent.vespene_current e;
   PlayerStatsEvent.minerals_collection_rate e;
   PlayerStatsEvent.vespene_collection_rate e;
   PlayerStatsEvent.workers_active_count e;
   PlayerStatsEvent.minerals_used_in_progress_army e;
   PlayerStatsEvent.minerals_used_in_progress_economy e;
   PlayerStatsEvent.minerals_used_in_progress_technology e;
   PlayerStatsEvent.minerals_used_in_progress e;
   PlayerStatsEvent.vespene_used_in_progress_army e;
   PlayerStatsEvent.vespene_used_in_progress_economy e;
   PlayerStatsEvent.vespene_used_in_progress_technology e;
   PlayerStatsEvent.vespene_used_in_progress e;
   PlayerStatsEvent.resources_used_in_progress e;
   PlayerStatsEvent.minerals_used_current_army e;
   PlayerStatsEvent.minerals_used_current_economy e;
   PlayerStatsEvent.minerals_used_current_technology e;
   PlayerStatsEvent.minerals_used_current e;
   PlayerStatsEvent.vespene_used_current_army e;
   PlayerStatsEvent.vespene_used_current_economy e;
   PlayerStatsEvent.vespene_used_current_technology e;
   PlayerStatsEvent.vespene_used_current e;
   PlayerStatsEvent.resources_used_current e;
   PlayerStatsEvent.minerals_lost_army e;
   PlayerStatsEvent.minerals_lost_economy e;
   PlayerStatsEvent.minerals_lost_technology e;
   PlayerStatsEvent.minerals_lost e;
   PlayerStatsEvent.vespene_lost_army e;
   PlayerStatsEvent.vespene_lost_economy e;
   PlayerStatsEvent.vespene_lost_technology e;
   PlayerStatsEvent.vespene_lost e;
   PlayerStatsEvent.resources_lost e;
   PlayerStatsEvent.minerals_killed_army e;
   PlayerStatsEvent.minerals_killed_economy e;
   PlayerStatsEvent.minerals_killed_technology e;
   PlayerStatsEvent.minerals_killed e;
   PlayerStatsEvent.vespene_killed_army e;
   PlayerStatsEvent.vespene_killed_economy e;
   PlayerStatsEvent.vespene_killed_technology e;
   PlayerStatsEvent.vespene_killed e;
   PlayerStatsEvent.resources_killed e;
   PlayerStatsEvent.minerals_used_active_forces e;
   PlayerStatsEvent.vespene_used_active_forces e].

(** The friendly-fire fields of a player-stats event. *)
Definition ff_fields (e : PlayerStatsEvent.t) : list (option Z) :=
  [PlayerStatsEvent.ff_minerals_lost_army e;
   PlayerStatsEvent.ff_minerals_lost_economy e;
   PlayerStatsEvent.ff_minerals_lost_technology e;
   PlayerStatsEvent.ff_vespene_lost_army e;
   PlayerStatsEvent.ff_vespene_lost_economy e;
   PlayerStatsEvent.ff_vespene_lost_technology e].


(** The number of stats slots [PlayerStatsEvent.__init__] reads: slots 33 to
    38 only behind [build >= 26490]. *)
Definition slots_read (build : Z) : nat :=
  if 26490 <=? build then 39%nat else 33%nat.

(** A drone and its death, the drone attached. *)
Definition sample_drone : Unit :=
  {| Unit_owner := {| Player_pid := 1 |}; Unit_name := "Drone";
     Unit_type := 104; Unit_is_army := false; Unit_is_building := false |}.

Definition sample_drone_death : UnitDiedEvent.t :=
  {| UnitDiedEvent.base := {| TrackerEvent.frame := 16; TrackerEvent.second := 0;
                              TrackerEvent.name := "UnitDiedEvent" |};
     UnitDiedEvent.unit_id_index := FInt 5;
     UnitDiedEvent.unit_id_recycle := FInt 7;
     UnitDiedEvent.unit_id := 1310727;
     UnitDiedEvent.unit := Some sample_drone;
     UnitDiedEvent.killer_pid := FInt 2;
     UnitDiedEvent.killer := None;
     UnitDiedEvent.killing_player_id := FInt 2;
     UnitDiedEvent.killing_player := None;
     UnitDiedEvent.x := FInt 10;
     UnitDiedEvent.y := FInt 20;
     UnitDiedEvent.location := (FInt 10, FInt 20);
     UnitDiedEvent.killing_unit_index := None;
     UnitDiedEvent.killing_unit_recycle := None;
     UnitDiedEvent.killing_unit_id := None;
     UnitDiedEvent.killing_unit := None |}.

(** * Binary64 arithmetic: conversion of integers, division by 22.4,
    truncation *)

Lemma digits2_pos_size p : digits2_pos p = Pos.size p.
Proof. induction p; simpl; congruence. Qed.

Lemma digits2_pos_range (p : positive) (n : Z) :
  2 ^ (n - 1) <= Zpos p < 2 ^ n -> Zpos (digits2_pos p) = n.
Proof.
  intros [Hlo Hhi]. rewrite digits2_pos_size.
  pose proof (Pos.size_gt p) as Hgt. pose proof (Pos.size_le p) as Hle.
  apply Pos2Z.pos_lt_pos in Hgt. apply Pos2Z.pos_le_pos in Hle.
  rewrite Pos2Z.inj_pow in Hgt, Hle.
  set (s := Zpos (Pos.size p)) in *.
  assert (0 < s) by (subst s; lia).
  assert (0 < n).
  { destruct (Z_lt_le_dec 0 n) as [|Hn]; [assumption|].
    destruct (Z.eq_dec n 0) as [->|]; [simpl in Hhi; lia|].
    rewrite (Z.pow_neg_r 2 n) in Hhi by lia. lia. }
  assert (n - 1 < s).
  { apply (proj2 (Z.pow_lt_mono_r_iff 2 (n - 1) s ltac:(lia) ltac:(lia))). lia. }
  assert (s < n + 1).
  { apply (proj2 (Z.pow_lt_mono_r_iff 2 s (n + 1) ltac:(lia) ltac:(lia))).
    replace (n + 1) with (Z.succ n) by lia. rewrite Z.pow_succ_r by lia. lia. }
  lia.
Qed.

Lemma shr_fexp_keep m e l :
  Zdigits2 m = 53 -> -1074 <= e ->
  shr_fexp f64_prec f64_emax m e l = (shr_record_of_loc m l, e).
Proof.
  intros Hd He. unfold shr_fexp. rewrite Hd.
  replace (fexp f64_prec f64_emax (53 + e) - e) with 0
    by (unfold fexp, emin, f64_prec, f64_emax; lia).
  reflexivity.
Qed.

Lemma shr_fexp_one m e l :
  Zdigits2 m = 54 -> -1074 <= e ->
  shr_fexp f64_prec f64_emax m e l = (shr_1 (shr_record_of_loc m l), e + 1).
Proof.
  intros Hd He. unfold shr_fexp. rewrite Hd.
  replace (fexp f64_prec f64_emax (54 + e) - e) with 1
    by (unfold fexp, emin, f64_prec, f64_emax; lia).
  reflexivity.
Qed.

Lemma renorm_finite (m1 e : Z) :
  2 ^ 52 <= m1 <= 2 ^ 53 -> -1074 <= e <= 960 ->
  exists m' k, 0 <= k <= 1 /\ renorm m1 e = S754_finite false m' (e + k) /\
    Zpos m' * 2 ^ k = m1.
Proof.
  intros Hm He. unfold renorm.
  destruct (Z_lt_le_dec m1 (2 ^ 53)) as [Hlt|Hge].
  - destruct m1 as [|p1|p1]; try lia.
    rewrite shr_fexp_keep by (try lia; simpl; apply digits2_pos_range; lia).
    cbn [shr_m shr_record_of_loc].
    replace (e <=? f64_emax - f64_prec) with true
      by (symmetry; apply Z.leb_le; unfold f64_emax, f64_prec; lia).
    exists p1, 0. rewrite Z.add_0_r. repeat split; lia.
  - assert (Heq : m1 = 2 ^ 53) by lia. rewrite Heq.
    rewrite shr_fexp_one; [| reflexivity | lia].
    replace (e + 1 <=? f64_emax - f64_prec) with true
      by (symmetry; apply Z.leb_le; unfold f64_emax, f64_prec; lia).
    eexists _, 1. split; [lia|]. split; reflexivity.
Qed.

Lemma binary_round_aux_renorm (q e : Z) (l : location) :
  binary_round_aux f64_prec f64_emax false q e l =
  (let '(mrs, e') := shr_fexp f64_prec f64_emax q e l in
   renorm (round_nearest_even (shr_m mrs) (loc_of_shr_record mrs)) e').
Proof. unfold binary_round_aux, renorm. destruct (shr_fexp _ _ q e l). reflexivity. Qed.

(** Rounding a 53-bit or 54-bit mantissa to binary64: the result is finite,
    its exponent is raised by at most 2, and its value lies between [q] made
    even and [q + 2], in units of 2^e. *)
Lemma round_mantissa (q e : Z) (l : location) :
  2 ^ 52 <= q < 2 ^ 54 -> -1074 <= e <= 900 ->
  exists m' k, 0 <= k <= 2 /\
    binary_round_aux f64_prec f64_emax false q e l = S754_finite false m' (e + k) /\
    2 * (q / 2) <= Zpos m' * 2 ^ k <= q + 2.
Proof.
  intros Hq He. rewrite binary_round_aux_renorm.
  destruct q as [|p|p]; try lia.
  pose proof (Z.mul_div_le (Zpos p) 2 ltac:(lia)) as Hdiv.
  destruct (Z_lt_le_dec (Zpos p) (2 ^ 53)) as [Hlt|Hge].
  - rewrite shr_fexp_keep by (try lia; simpl; apply digits2_pos_range; lia).
    set (m1 := round_nearest_even _ _).
    assert (Hm1 : m1 = Zpos p \/ m1 = Zpos p + 1).
    { subst m1. destruct l as [|[]];
        cbn [round_nearest_even loc_of_shr_record shr_record_of_loc shr_m]; auto.
      destruct (Z.even (Z.pos p)); auto. }
    destruct (renorm_finite m1 e) as (m' & k & Hk & -> & Hv); [lia|lia|].
    exists m', k. repeat split; lia.
  - rewrite shr_fexp_one by (try lia; simpl; apply digits2_pos_range; lia).
    set (mrs := shr_1 _).
    set (m1 := round_nearest_even _ _).
    assert (Hm1 : m1 = Zpos p / 2 \/ m1 = Zpos p / 2 + 1).
    { subst m1 mrs.
      assert (Hh : shr_m (shr_1 (shr_record_of_loc (Zpos p) l)) = Zpos p / 2).
      { destruct p as [p'|p'|]; [| |lia];
          destruct l as [|[]]; cbn [shr_1 shr_record_of_loc shr_m];
          [apply (Z.div_unique _ 2 _ 1)|apply (Z.div_unique _ 2 _ 1)
          |apply (Z.div_unique _ 2 _ 1)|apply (Z.div_unique _ 2 _ 1)
          |apply (Z.div_unique _ 2 _ 0)|apply (Z.div_unique _ 2 _ 0)
          |apply (Z.div_unique _ 2 _ 0)|apply (Z.div_unique _ 2 _ 0)]; lia. }
      rewrite Hh. unfold round_nearest_even.
      destruct (loc_of_shr_record _) as [|[]]; auto.
      destruct (Z.even _); auto. }
    assert (Hhalf : 2 ^ 52 <= Zpos p / 2 < 2 ^ 53).
    { pose proof (Z.div_mod (Zpos p) 2 ltac:(lia)).
      pose proof (Z.mod_pos_bound (Zpos p) 2 ltac:(lia)). lia. }
    destruct (renorm_finite m1 (e + 1)) as (m' & k & Hk & -> & Hv); [lia|lia|].
    exists m', (1 + k). split; [lia|]. split; [f_equal; lia|].
    rewrite Z.pow_add_r by lia. lia.
Qed.

Lemma digits2_pos_bounds (p : positive) :
  2 ^ (Zpos (digits2_pos p) - 1) <= Zpos p < 2 ^ Zpos (digits2_pos p).
Proof.
  rewrite digits2_pos_size.
  pose proof (Pos.size_gt p) as Hgt. pose proof (Pos.size_le p) as Hle.
  apply Pos2Z.pos_lt_pos in Hgt. apply Pos2Z.pos_le_pos in Hle.
  rewrite Pos2Z.inj_pow in Hgt, Hle.
  set (s := Zpos (Pos.size p)) in *.
  assert (0 < s) by (subst s; lia).
  replace s with (Z.succ (s - 1)) in Hle by lia.
  rewrite Z.pow_succ_r in Hle by lia. lia.
Qed.

Lemma iter_xO_pow (p k : positive) :
  Zpos (Pos.iter xO p k) = Zpos p * 2 ^ Zpos k.
Proof.
  induction k as [|k IH] using Pos.peano_ind.
  - simpl. lia.
  - rewrite Pos.iter_succ, Pos2Z.inj_succ, Z.pow_succ_r by lia.
    change (Zpos (Pos.iter xO p k)~0) with (2 * Zpos (Pos.iter xO p k)). lia.
Qed.

(** An integer below 2^53 converts exactly: the mantissa is the integer
    shifted up to 53 bits. *)
Lemma float_of_int_exact (p : positive) :
  Zpos p < 2 ^ 53 ->
  exists mx, float_of_int (Zpos p) =
      Ok (S754_finite false mx (Zpos (digits2_pos p) - 53)) /\
    Zpos mx = Zpos p * 2 ^ (53 - Zpos (digits2_pos p)) /\
    2 ^ 52 <= Zpos mx < 2 ^ 53.
Proof.
  intros Hp. pose proof (digits2_pos_bounds p) as Hd.
  set (d := Zpos (digits2_pos p)) in *.
  assert (Hd53 : 0 < d <= 53).
  { split; [subst d; lia|].
    destruct (Z_le_gt_dec d 53) as [|Hgt]; [assumption|exfalso].
    assert (2 ^ 53 <= 2 ^ (d - 1)) by (apply Z.pow_le_mono_r; lia). lia. }
  unfold float_of_int, binary_normalize, binary_round.
  fold d.
  replace (fexp f64_prec f64_emax (d + 0)) with (d - 53)
    by (unfold fexp, emin, f64_prec, f64_emax; lia).
  unfold shl_align.
  assert (Hal : exists mx, (match d - 53 - 0 with
            | Z.neg k => (Pos.iter xO p k, d - 53)
            | _ => (p, 0) end) = (mx, d - 53) /\
          Zpos mx = Zpos p * 2 ^ (53 - d)).
  { destruct (d - 53 - 0) as [|k|k] eqn:Hk; try lia.
    - exists p. replace (d - 53) with 0 by lia. replace (53 - d) with 0 by lia.
      split; [reflexivity|lia].
    - exists (Pos.iter xO p k). split; [reflexivity|].
      rewrite iter_xO_pow. f_equal. f_equal. lia. }
  destruct Hal as (mx & -> & Hmx).
  assert (Hrange : 2 ^ 52 <= Zpos mx < 2 ^ 53).
  { rewrite Hmx.
    assert (E52 : 2 ^ 52 = 2 ^ (d - 1) * 2 ^ (53 - d))
      by (rewrite <- Z.pow_add_r by lia; f_equal; lia).
    assert (E53 : 2 ^ 53 = 2 ^ d * 2 ^ (53 - d))
      by (rewrite <- Z.pow_add_r by lia; f_equal; lia).
    assert (0 < 2 ^ (53 - d)) by (apply Z.pow_pos_nonneg; lia).
    rewrite E52, E53. split; [apply Z.mul_le_mono_nonneg_r | apply Z.mul_lt_mono_pos_r]; lia. }
  exists mx. split; [|split; assumption].
  rewrite binary_round_aux_renorm.
  rewrite shr_fexp_keep by (try lia; simpl; apply digits2_pos_range; lia).
  cbn [round_nearest_even loc_of_shr_record shr_record_of_loc shr_m].
  unfold renorm.
  rewrite shr_fexp_keep by (try lia; simpl; apply digits2_pos_range; lia).
  cbn [shr_record_of_loc shr_m].
  replace (d - 53 <=? f64_emax - f64_prec) with true
    by (symmetry; apply Z.leb_le; unfold f64_emax, f64_prec; lia).
  reflexivity.
Qed.

(** The literal 22.4 is the double nearest to 224/10: off by 2/5 of a unit in
    the last place; the literal 4096.0 is 2^12 exactly. *)
Lemma float_literals :
  5 * M22_4 = 112 * 2 ^ 48 - 2 /\
  f22_4 = S754_finite false (Z.to_pos M22_4) (-48) /\
  valid_binary f64_prec f64_emax f22_4 = true /\
  f4096 = S754_finite false (Z.to_pos (2 ^ 52)) (12 - 52) /\
  valid_binary f64_prec f64_emax f4096 = true.
Proof. repeat split; reflexivity. Qed.

Lemma SFdiv_core_22_4 (mx : positive) (ex : Z) :
  2 ^ 52 <= Zpos mx < 2 ^ 53 -> -1000 <= ex <= 1000 ->
  SFdiv_core_binary f64_prec f64_emax (Zpos mx) ex M22_4 (-48) =
    (Zpos mx * 2 ^ 53 / M22_4, ex - 5,
     new_location M22_4 (Zpos mx * 2 ^ 53 mod M22_4)).
Proof.
  intros Hm He. unfold SFdiv_core_binary.
  replace (Zdigits2 (Zpos mx)) with 53
    by (symmetry; simpl; apply digits2_pos_range; lia).
  change (Zdigits2 M22_4) with 53.
  replace (Z.min (fexp f64_prec f64_emax (53 + ex - (53 + -48))) (ex - -48))
    with (ex - 5) by (unfold fexp, emin, f64_prec, f64_emax; lia).
  replace (ex - -48 - (ex - 5)) with 53 by lia.
  cbv iota. rewrite Z.shiftl_mul_pow2 by lia.
  unfold Z.div, Z.modulo.
  destruct (Z.div_eucl (Zpos mx * 2 ^ 53) M22_4). reflexivity.
Qed.

(** Division of a normal double by the literal 22.4: finite, with the
    mantissa within one rounding step of the integer quotient. *)
Lemma SFdiv_22_4 (mx : positive) (ex : Z) :
  2 ^ 52 <= Zpos mx < 2 ^ 53 -> -1000 <= ex <= 900 ->
  exists m' k, 0 <= k <= 2 /\
    SFdiv f64_prec f64_emax (S754_finite false mx ex) f22_4 =
      S754_finite false m' (ex - 5 + k) /\
    2 * (Zpos mx * 2 ^ 53 / M22_4 / 2) <= Zpos m' * 2 ^ k
      <= Zpos mx * 2 ^ 53 / M22_4 + 2.
Proof.
  intros Hm He. unfold SFdiv, f22_4.
  change (Zpos 6305039478318694) with M22_4.
  rewrite SFdiv_core_22_4 by lia. cbn [xorb].
  apply round_mantissa; [|lia].
  assert (HM : 2 ^ 52 < M22_4 < 2 ^ 53) by (unfold M22_4; lia).
  assert (0 < M22_4) by lia.
  split.
  - apply Z.div_le_lower_bound; [lia|]. nia.
  - apply Z.div_lt_upper_bound; [lia|]. nia.
Qed.

(** The integer arithmetic behind [int(frame / 22.4)]: any value within one
    rounding step of the quotient by the double 22.4 truncates to
    [5 * f / 112]. *)
Lemma trunc_window (f E W : Z) :
  0 < f < 2 ^ 32 -> 2 ^ 26 <= E -> (exists t, E = 2 * t) ->
  2 * (f * 2 ^ 48 * E / M22_4 / 2) <= W <= f * 2 ^ 48 * E / M22_4 + 2 ->
  W / E = 5 * f / 112.
Proof.
  intros Hf HE [t Ht] HW.
  set (n := 5 * f / 112).
  assert (Hn : 112 * n <= 5 * f <= 112 * n + 111).
  { pose proof (Z.div_mod (5 * f) 112 ltac:(lia)).
    pose proof (Z.mod_pos_bound (5 * f) 112 ltac:(lia)). subst n. lia. }
  assert (Hn0 : 0 <= n < 2 ^ 28) by lia.
  set (q := f * 2 ^ 48 * E / M22_4) in *.
  assert (HM : 0 < M22_4) by (unfold M22_4; lia).
  assert (Hlow : n * E <= q).
  { apply Z.div_le_lower_bound; [lia|].
    assert (0 <= f * 2 ^ 48 - n * M22_4) by (unfold M22_4; lia).
    assert (0 <= E * (f * 2 ^ 48 - n * M22_4)) by (apply Z.mul_nonneg_nonneg; lia).
    lia. }
  assert (Hup : q < (n + 1) * E - 2).
  { apply Z.div_lt_upper_bound; [lia|].
    assert (Hc : 2 ^ 45 <= M22_4 * (n + 1) - f * 2 ^ 48) by (unfold M22_4; lia).
    assert (2 ^ 26 * 2 ^ 45 <= E * (M22_4 * (n + 1) - f * 2 ^ 48))
      by (apply Z.mul_le_mono_nonneg; lia).
    unfold M22_4 in *. lia. }
  assert (Heven : n * E <= 2 * (q / 2)).
  { assert (n * t <= q / 2) by (apply Z.div_le_lower_bound; lia). lia. }
  symmetry. apply (Z.div_unique_pos W E n (W - n * E)); lia.
Qed.

(** [int(f / 22.4)] for a frame counter below 2^32. *)
Lemma int_div_22_4 (f : Z) :
  0 <= f < 2 ^ 32 ->
  (q ← int_truediv_float f f22_4; py_int q) = Ok (5 * f / 112).
Proof.
  intros Hf. destruct f as [|p|p]; [reflexivity| |lia].
  pose proof (digits2_pos_bounds p) as Hd.
  set (d := Zpos (digits2_pos p)) in *.
  assert (Hd32 : 0 < d <= 32).
  { split; [subst d; lia|].
    destruct (Z_le_gt_dec d 32) as [|Hgt]; [assumption|exfalso].
    assert (2 ^ 32 <= 2 ^ (d - 1)) by (apply Z.pow_le_mono_r; lia). lia. }
  destruct (float_of_int_exact p) as (mx & Hx & Hmx & Hr); [lia|].
  fold d in Hx, Hmx.
  destruct (SFdiv_22_4 mx (d - 53)) as (m' & k & Hk & Hq & Hv); [lia|lia|].
  unfold int_truediv_float. rewrite Hx. cbn [mbind result_bind float_truediv f22_4].
  fold f22_4. rewrite Hq. cbn [py_int cond_Zopp].
  f_equal.
  replace (d - 53 - 5 + k) with (- (58 - d - k)) by lia.
  rewrite Z.shiftl_div_pow2 by lia.
  assert (HE : 2 ^ (58 - d) = 2 ^ k * 2 ^ (58 - d - k))
    by (rewrite <- Z.pow_add_r by lia; f_equal; lia).
  assert (Hk0 : 0 < 2 ^ k) by (apply Z.pow_pos_nonneg; lia).
  assert (Hr0 : 0 < 2 ^ (58 - d - k)) by (apply Z.pow_pos_nonneg; lia).
  rewrite Z.opp_involutive.
  rewrite <- (Z.div_mul_cancel_l (Zpos m') (2 ^ (58 - d - k)) (2 ^ k)) by lia.
  rewrite <- HE, (Z.mul_comm (2 ^ k)).
  apply trunc_window; [lia| | |].
  - change (2 ^ 26) with (2 ^ (58 - 32)). apply Z.pow_le_mono_r; lia.
  - exists (2 ^ (57 - d)). replace (58 - d) with (Z.succ (57 - d)) by lia.
    rewrite Z.pow_succ_r by lia. reflexivity.
  - replace (Zpos p * 2 ^ 48 * 2 ^ (58 - d)) with (Zpos mx * 2 ^ 53); [exact Hv|].
    rewrite Hmx, <- !Z.mul_assoc, <- !Z.pow_add_r by lia. do 2 f_equal. lia.
Qed.

(** * The tracker event constructors *)

(** ** Reading results *)

Lemma bind_Ok_inv {A B : Type} (m : result A) (f : A -> result B) (b : B) :
  m ≫= f = Ok b -> exists a, m = Ok a /\ f a = Ok b.
Proof. destruct m as [a|e]; simpl; [eauto | discriminate]. Qed.

Lemma getitem_Ok {A : Type} (l : list A) (i : nat) (a : A) :
  getitem l i = Ok a <-> l !! i = Some a.
Proof. unfold getitem. destruct (l !! i); split; congruence. Qed.

Lemma getitem_IndexError {A : Type} (l : list A) (i : nat) :
  getitem l i = Raise IndexError <-> (length l <= i)%nat.
Proof.
  unfold getitem. destruct (l !! i) eqn:E.
  - apply lookup_lt_Some in E. split; [discriminate | lia].
  - apply lookup_ge_None in E. split; auto.
Qed.

Lemma getfield_Ok {A : Type} (data : list A) (i : nat) (a : A) :
  getfield data i = Ok a <-> data !! i = Some a.
Proof. unfold getfield. destruct (data !! i); split; congruence. Qed.

Lemma getfield_KeyError {A : Type} (data : list A) (i : nat) :
  getfield data i = Raise KeyError <-> data !! i = None.
Proof. unfold getfield. destruct (data !! i); split; congruence. Qed.

Lemma getfield_present {A : Type} (data : list A) (i j : nat) (a : A) :
  data !! j = Some a -> (i <= j)%nat -> exists b, data !! i = Some b /\ getfield data i = Ok b.
Proof.
  intros Hj Hij. apply lookup_lt_Some in Hj.
  destruct (lookup_lt_is_Some_2 data i ltac:(lia)) as [b Hb].
  exists b. split; [assumption | apply getfield_Ok; assumption].
Qed.

Ltac inv_binds :=
  repeat match goal with
  | H : _ ≫= _ = Ok _ |- _ =>
      let a := fresh "v" in let Ha := fresh "Hv" in
      apply bind_Ok_inv in H; destruct H as (a & Ha & H)
  end.

Ltac destruct_pairs :=
  repeat match goal with v : (_ * _)%type |- _ => destruct v end.

Ltac inv_Ok :=
  repeat match goal with
  | H : getitem _ _ = Ok _ |- _ => apply getitem_Ok in H
  | H : getfield _ _ = Ok _ |- _ => apply getfield_Ok in H
  end;
  simplify_eq.

(** ** [TrackerEvent.__init__] *)

Lemma TrackerEvent_init_Ok (cls : string) (frames : Z) :
  TrackerEvent.init cls frames =
    Ok {| TrackerEvent.frame := frames mod 2 ^ 32;
          TrackerEvent.second := 5 * (frames mod 2 ^ 32) / 112;
          TrackerEvent.name := cls |}.
Proof.
  unfold TrackerEvent.init.
  pose proof (int_div_22_4 (frames mod 2 ^ 32)
                (Z.mod_pos_bound frames (2 ^ 32) ltac:(lia))) as H.
  apply bind_Ok_inv in H. destruct H as (q & -> & Hq).
  cbn [mbind result_bind]. rewrite Hq. reflexivity.
Qed.

(** ** Unit identity *)

Lemma decode_compose (index recycle : Z) :
  0 <= recycle < 2 ^ 18 ->
  decode_unit_id (Z.lor (Z.shiftl index 18) recycle) = (index, recycle).
Proof.
  intros Hr. unfold decode_unit_id. f_equal.
  - rewrite Z.shiftr_lor, Z.shiftr_shiftl_l, Z.sub_diag, Z.shiftl_0_r by lia.
    rewrite (Z.shiftr_div_pow2 recycle) by lia.
    rewrite Z.div_small by lia. apply Z.lor_0_r.
  - change 262143 with (Z.ones 18).
    rewrite Z.land_lor_distr_l, !Z.land_ones by lia.
    rewrite Z.shiftl_mul_pow2 by lia.
    rewrite Z.mod_mul by lia. rewrite Z.mod_small by lia. reflexivity.
Qed.

(** What the identity prefix shared by the six unit constructors computes. *)
Lemma unit_id_prefix (data : list field) (i r : field) (s id index recycle : Z) :
  getfield data 0 = Ok i -> getfield data 1 = Ok r ->
  py_lshift i 18 = Ok s -> py_or s r = Ok id ->
  data !! 0%nat = Some (FInt index) -> data !! 1%nat = Some (FInt recycle) ->
  id = Z.lor (Z.shiftl index 18) recycle.
Proof.
  intros H0 H1 Hs Hid D0 D1. apply getfield_Ok in H0, H1.
  rewrite D0 in H0. rewrite D1 in H1. injection H0 as <-. injection H1 as <-.
  simpl in Hs. injection Hs as <-. simpl in Hid. injection Hid as <-. reflexivity.
Qed.

Ltac unit_id_tac :=
  cbn;
  match goal with
  | H0 : getfield ?data 0 = Ok _, H1 : getfield ?data 1 = Ok _,
    Hs : py_lshift _ 18 = Ok _, Ho : py_or _ _ = Ok _,
    D0 : ?data !! 0%nat = Some _, D1 : ?data !! 1%nat = Some _ |- _ =>
      rewrite (unit_id_prefix _ _ _ _ _ _ _ H0 H1 Hs Ho D0 D1)
  end;
  apply decode_compose; assumption.

(** Each of the six constructors returns on a record of its shape, with the
    composed identity. *)
Lemma UnitDoneEvent_init_Ok (frames : Z) (data : list field) (build index recycle : Z) :
  data !! 0%nat = Some (FInt index) -> data !! 1%nat = Some (FInt recycle) ->
  exists e, UnitDoneEvent.init frames data build = Ok e /\
    UnitDoneEvent.unit_id e = Z.lor (Z.shiftl index 18) recycle.
Proof.
  intros D0 D1. unfold UnitDoneEvent.init. rewrite TrackerEvent_init_Ok.
  unfold getfield. rewrite D0, D1. cbn. eexists. split; reflexivity.
Qed.

Lemma UnitOwnerChangeEvent_init_Ok (frames : Z) (data : list field)
    (build index recycle : Z) :
  data !! 0%nat = Some (FInt index) -> data !! 1%nat = Some (FInt recycle) ->
  is_Some (data !! 2%nat) -> is_Some (data !! 3%nat) ->
  exists e, UnitOwnerChangeEvent.init frames data build = Ok e /\
    UnitOwnerChangeEvent.unit_id e = Z.lor (Z.shiftl index 18) recycle.
Proof.
  intros D0 D1 [c D2] [u D3]. unfold UnitOwnerChangeEvent.init.
  rewrite TrackerEvent_init_Ok. unfold getfield. rewrite D0, D1, D2, D3. cbn.
  eexists. split; reflexivity.
Qed.

Lemma UnitTypeChangeEvent_init_Ok (frames : Z) (data : list field)
    (build index recycle : Z) :
  data !! 0%nat = Some (FInt index) -> data !! 1%nat = Some (FInt recycle) ->
  (exists d2 name, data !! 2%nat = Some d2 /\ decode_utf8 d2 = Ok name) ->
  exists e, UnitTypeChangeEvent.init frames data build = Ok e /\
    UnitTypeChangeEvent.unit_id e = Z.lor (Z.shiftl index 18) recycle.
Proof.
  intros D0 D1 (d2 & name & D2 & Hname). unfold UnitTypeChangeEvent.init.
  rewrite TrackerEvent_init_Ok. unfold getfield. rewrite D0, D1, D2.
  cbn [mbind result_bind py_lshift py_or]. rewrite Hname. cbn.
  eexists. split; reflexivity.
Qed.

Lemma UnitBornEvent_init_Ok (frames : Z) (data : list field)
    (build index recycle x y : Z) :
  born_record data index recycle x y ->
  exists e, UnitBornEvent.init frames data build = Ok e /\
    UnitBornEvent.unit_id e = Z.lor (Z.shiftl index 18) recycle /\
    UnitBornEvent.x e = FInt (if build <? 27950 then x * 4 else x) /\
    UnitBornEvent.y e = FInt (if build <? 27950 then y * 4 else y) /\
    UnitBornEvent.location e = (UnitBornEvent.x e, UnitBornEvent.y e).
Proof.
  intros (D0 & D1 & (d2 & name & D2 & Hname) & [c D3] & [u D4] & D5 & D6).
  unfold UnitBornEvent.init. rewrite TrackerEvent_init_Ok.
  unfold getfield. rewrite D0, D1, D2, D3, D4, D5, D6.
  cbn [mbind result_bind py_lshift py_or]. rewrite Hname.
  destruct (build <? 27950); cbn; eexists; repeat split; reflexivity.
Qed.

Lemma UnitInitEvent_init_Ok (frames : Z) (data : list field)
    (build index recycle x y : Z) :
  born_record data index recycle x y ->
  exists e, UnitInitEvent.init frames data build = Ok e /\
    UnitInitEvent.unit_id e = Z.lor (Z.shiftl index 18) recycle /\
    UnitInitEvent.x e = FInt (if build <? 27950 then x * 4 else x) /\
    UnitInitEvent.y e = FInt (if build <? 27950 then y * 4 else y) /\
    UnitInitEvent.location e = (UnitInitEvent.x e, UnitInitEvent.y e).
Proof.
  intros (D0 & D1 & (d2 & name & D2 & Hname) & [c D3] & [u D4] & D5 & D6).
  unfold UnitInitEvent.init. rewrite TrackerEvent_init_Ok.
  unfold getfield. rewrite D0, D1, D2, D3, D4, D5, D6.
  cbn [mbind result_bind py_lshift py_or]. rewrite Hname.
  destruct (build <? 27950); cbn; eexists; repeat split; reflexivity.
Qed.

Lemma UnitDiedEvent_init_Ok (frames : Z) (data : list field)
    (build index recycle x y : Z) :
  died_record build data index recycle x y ->
  exists e, UnitDiedEvent.init frames data build = Ok e /\
    UnitDiedEvent.unit_id e = Z.lor (Z.shiftl index 18) recycle /\
    UnitDiedEvent.x e = FInt (if build <? 27950 then x * 4 else x) /\
    UnitDiedEvent.y e = FInt (if build <? 27950 then y * 4 else y) /\
    UnitDiedEvent.location e = (UnitDiedEvent.x e, UnitDiedEvent.y e).
Proof.
  intros (D0 & D1 & [p D2] & D3 & D4 & Hk).
  unfold UnitDiedEvent.init. rewrite TrackerEvent_init_Ok.
  unfold getfield at 1 2 3 4 5 6. rewrite D0, D1, D2, D3, D4.
  cbn [mbind result_bind py_lshift py_or].
  destruct (Z.ltb_spec build 27950) as [Hb|Hb].
  - cbn. eexists. repeat split; reflexivity.
  - destruct (Hk Hb) as (k & r & D5 & D6 & Hint).
    unfold UnitDiedEvent.killer_fields, getfield. rewrite D5, D6.
    cbn [mbind result_bind]. destruct (truthy k) eqn:Ht.
    + destruct (Hint eq_refl) as (ki & kr & -> & ->). cbn.
      eexists. repeat split; reflexivity.
    + cbn. eexists. repeat split; reflexivity.
Qed.

(** C1: for index in [0, 2^14) and recycle in [0, 2^18), decoding
    [(index << 18) | recycle] with [(id >> 18, id & 0x3FFFF)] gives back
    [(index, recycle)]. Each of the six unit event constructors, given a
    record of its shape whose first two fields are [index] and [recycle],
    returns an event whose [unit_id] decodes to [(index, recycle)]; and
    whatever else the record holds, an event that any of the six returns has
    such a [unit_id]. *)
Theorem unit_id_round_trip (index recycle : Z) :
  0 <= index < 2 ^ 14 -> 0 <= recycle < 2 ^ 18 ->
  decode_unit_id (Z.lor (Z.shiftl index 18) recycle) = (index, recycle) /\
  forall (frames : Z) (data : list field) (build : Z),
    data !! 0%nat = Some (FInt index) -> data !! 1%nat = Some (FInt recycle) ->
    ((exists e, UnitDoneEvent.init frames data build = Ok e /\
        decode_unit_id (UnitDoneEvent.unit_id e) = (index, recycle)) /\
     (is_Some (data !! 2%nat) -> is_Some (data !! 3%nat) ->
      exists e, UnitOwnerChangeEvent.init frames data build = Ok e /\
        decode_unit_id (UnitOwnerChangeEvent.unit_id e) = (index, recycle)) /\
     ((exists d2 name, data !! 2%nat = Some d2 /\ decode_utf8 d2 = Ok name) ->
      exists e, UnitTypeChangeEvent.init frames data build = Ok e /\
        decode_unit_id (UnitTypeChangeEvent.unit_id e) = (index, recycle)) /\
     (forall x y, born_record data index recycle x y ->
      (exists e, UnitBornEvent.init frames data build = Ok e /\
         decode_unit_id (UnitBornEvent.unit_id e) = (index, recycle)) /\
      (exists e, UnitInitEvent.init frames data build = Ok e /\
         decode_unit_id (UnitInitEvent.unit_id e) = (index, recycle))) /\
     (forall x y, died_record build data index recycle x y ->
      exists e, UnitDiedEvent.init frames data build = Ok e /\
        decode_unit_id (UnitDiedEvent.unit_id e) = (index, recycle))) /\
    (forall e, UnitBornEvent.init frames data build = Ok e ->
       decode_unit_id (UnitBornEvent.unit_id e) = (index, recycle)) /\
    (forall e, UnitDiedEvent.init frames data build = Ok e ->
       decode_unit_id (UnitDiedEvent.unit_id e) = (index, recycle)) /\
    (forall e, UnitInitEvent.init frames data build = Ok e ->
       decode_unit_id (UnitInitEvent.unit_id e) = (index, recycle)) /\
    (forall e, UnitDoneEvent.init frames data build = Ok e ->
       decode_unit_id (UnitDoneEvent.unit_id e) = (index, recycle)) /\
    (forall e, UnitOwnerChangeEvent.init frames data build = Ok e ->
       decode_unit_id (UnitOwnerChangeEvent.unit_id e) = (index, recycle)) /\
    (forall e, UnitTypeChangeEvent.init frames data build = Ok e ->
       decode_unit_id (UnitTypeChangeEvent.unit_id e) = (index, recycle)).
Proof.
  intros Hi Hr. pose proof (decode_compose index recycle Hr) as Hdec.
  split; [exact Hdec|].
  intros frames data build D0 D1. split.
  - split; [|split; [|split; [|split]]].
    + destruct (UnitDoneEvent_init_Ok frames data build _ _ D0 D1) as (e & He & Hid).
      exists e. rewrite Hid. auto.
    + intros D2 D3.
      destruct (UnitOwnerChangeEvent_init_Ok frames data build _ _ D0 D1 D2 D3)
        as (e & He & Hid).
      exists e. rewrite Hid. auto.
    + intros D2.
      destruct (UnitTypeChangeEvent_init_Ok frames data build _ _ D0 D1 D2)
        as (e & He & Hid).
      exists e. rewrite Hid. auto.
    + intros x y Hrec. split.
      * destruct (UnitBornEvent_init_Ok frames data build _ _ _ _ Hrec)
          as (e & He & Hid & _).
        exists e. rewrite Hid. auto.
      * destruct (UnitInitEvent_init_Ok frames data build _ _ _ _ Hrec)
          as (e & He & Hid & _).
        exists e. rewrite Hid. auto.
    + intros x y Hrec.
      destruct (UnitDiedEvent_init_Ok frames data build _ _ _ _ Hrec)
        as (e & He & Hid & _).
      exists e. rewrite Hid. auto.
  - repeat split; intros e He.
    + unfold UnitBornEvent.init in He. inv_binds. destruct_pairs.
      injection He as <-. unit_id_tac.
    + unfold UnitDiedEvent.init in He. inv_binds. destruct_pairs.
      injection He as <-. unit_id_tac.
    + unfold UnitInitEvent.init in He. inv_binds. destruct_pairs.
      injection He as <-. unit_id_tac.
    + unfold UnitDoneEvent.init in He. inv_binds. injection He as <-. unit_id_tac.
    + unfold UnitOwnerChangeEvent.init in He. inv_binds. injection He as <-. unit_id_tac.
    + unfold UnitTypeChangeEvent.init in He. inv_binds. injection He as <-. unit_id_tac.
Qed.

(** ** Coordinates *)

(** The two multiplications behind [build < 27950]. *)
Lemma scaled_Ok (build : Z) (rx ry x y : field) :
  (if build <? 27950 then x4 ← py_mul rx 4; y4 ← py_mul ry 4; Ok (x4, y4)
   else Ok (rx, ry)) = Ok (x, y) ->
  (build < 27950 -> py_mul rx 4 = Ok x /\ py_mul ry 4 = Ok y) /\
  (27950 <= build -> x = rx /\ y = ry).
Proof.
  destruct (Z.ltb_spec build 27950) as [Hb|Hb]; intros H.
  - inv_binds. inv_Ok. split; [auto | lia].
  - inv_Ok. split; [lia | auto].
Qed.

Lemma UnitBornEvent_coords (frames : Z) (data : list field) (build : Z)
    (e : UnitBornEvent.t) (rx ry : field) :
  UnitBornEvent.init frames data build = Ok e ->
  data !! 5%nat = Some rx -> data !! 6%nat = Some ry ->
  (build < 27950 ->
     py_mul rx 4 = Ok (UnitBornEvent.x e) /\ py_mul ry 4 = Ok (UnitBornEvent.y e)) /\
  (27950 <= build -> UnitBornEvent.x e = rx /\ UnitBornEvent.y e = ry) /\
  UnitBornEvent.location e = (UnitBornEvent.x e, UnitBornEvent.y e).
Proof.
  intros He Dx Dy. unfold UnitBornEvent.init in He. inv_binds. destruct_pairs.
  injection He as <-. inv_Ok. cbn.
  match goal with H : _ = Ok (_, _) |- _ => apply scaled_Ok in H; destruct H end.
  auto.
Qed.

Lemma UnitInitEvent_coords (frames : Z) (data : list field) (build : Z)
    (e : UnitInitEvent.t) (rx ry : field) :
  UnitInitEvent.init frames data build = Ok e ->
  data !! 5%nat = Some rx -> data !! 6%nat = Some ry ->
  (build < 27950 ->
     py_mul rx 4 = Ok (UnitInitEvent.x e) /\ py_mul ry 4 = Ok (UnitInitEvent.y e)) /\
  (27950 <= build -> UnitInitEvent.x e = rx /\ UnitInitEvent.y e = ry) /\
  UnitInitEvent.location e = (UnitInitEvent.x e, UnitInitEvent.y e).
Proof.
  intros He Dx Dy. unfold UnitInitEvent.init in He. inv_binds. destruct_pairs.
  injection He as <-. inv_Ok. cbn.
  match goal with H : _ = Ok (_, _) |- _ => apply scaled_Ok in H; destruct H end.
  auto.
Qed.

Lemma UnitDiedEvent_coords (frames : Z) (data : list field) (build : Z)
    (e : UnitDiedEvent.t) (rx ry : field) :
  UnitDiedEvent.init frames data build = Ok e ->
  data !! 3%nat = Some rx -> data !! 4%nat = Some ry ->
  (build < 27950 ->
     py_mul rx 4 = Ok (UnitDiedEvent.x e) /\ py_mul ry 4 = Ok (UnitDiedEvent.y e)) /\
  (27950 <= build -> UnitDiedEvent.x e = rx /\ UnitDiedEvent.y e = ry) /\
  UnitDiedEvent.location e = (UnitDiedEvent.x e, UnitDiedEvent.y e).
Proof.
  intros He Dx Dy. unfold UnitDiedEvent.init in He. inv_binds. destruct_pairs.
  injection He as <-. inv_Ok. cbn.
  destruct (Z.ltb_spec build 27950) as [Hb|Hb].
  - inv_binds. inv_Ok. split; [auto|]. split; [lia | reflexivity].
  - inv_binds. inv_Ok. split; [lia|]. split; [auto | reflexivity].
Qed.

(** C2: a unit-born, unit-init or unit-died constructor given a record of
    its shape with integer coordinates [dx], [dy] returns an event that
    stores [4 * dx], [4 * dy] (in [x], [y] and [location]) when
    [build < 27950] and [dx], [dy] themselves when [build >= 27950]; and
    whatever else the record holds, an event that one of the three returns on
    a record with these coordinates stores them so. *)
Theorem coordinates_normalized (frames build index recycle dx dy : Z) (data : list field) :
  (born_record data index recycle dx dy ->
   (exists e, UnitBornEvent.init frames data build = Ok e /\
      (build < 27950 ->
         UnitBornEvent.x e = FInt (4 * dx) /\ UnitBornEvent.y e = FInt (4 * dy) /\
         UnitBornEvent.location e = (FInt (4 * dx), FInt (4 * dy))) /\
      (27950 <= build ->
         UnitBornEvent.x e = FInt dx /\ UnitBornEvent.y e = FInt dy /\
         UnitBornEvent.location e = (FInt dx, FInt dy))) /\
   (exists e, UnitInitEvent.init frames data build = Ok e /\
      (build < 27950 ->
         UnitInitEvent.x e = FInt (4 * dx) /\ UnitInitEvent.y e = FInt (4 * dy) /\
         UnitInitEvent.location e = (FInt (4 * dx), FInt (4 * dy))) /\
      (27950 <= build ->
         UnitInitEvent.x e = FInt dx /\ UnitInitEvent.y e = FInt dy /\
         UnitInitEvent.location e = (FInt dx, FInt dy)))) /\
  (died_record build data index recycle dx dy ->
   exists e, UnitDiedEvent.init frames data build = Ok e /\
     (build < 27950 ->
        UnitDiedEvent.x e = FInt (4 * dx) /\ UnitDiedEvent.y e = FInt (4 * dy) /\
        UnitDiedEvent.location e = (FInt (4 * dx), FInt (4 * dy))) /\
     (27950 <= build ->
        UnitDiedEvent.x e = FInt dx /\ UnitDiedEvent.y e = FInt dy /\
        UnitDiedEvent.location e = (FInt dx, FInt dy))) /\
  (forall e, UnitBornEvent.init frames data build = Ok e ->
     data !! 5%nat = Some (FInt dx) -> data !! 6%nat = Some (FInt dy) ->
     (build < 27950 ->
        UnitBornEvent.x e = FInt (4 * dx) /\ UnitBornEvent.y e = FInt (4 * dy) /\
        UnitBornEvent.location e = (FInt (4 * dx), FInt (4 * dy))) /\
     (27950 <= build ->
        UnitBornEvent.x e = FInt dx /\ UnitBornEvent.y e = FInt dy /\
        UnitBornEvent.location e = (FInt dx, FInt dy))) /\
  (forall e, UnitInitEvent.init frames data build = Ok e ->
     data !! 5%nat = Some (FInt dx) -> data !! 6%nat = Some (FInt dy) ->
     (build < 27950 ->
        UnitInitEvent.x e = FInt (4 * dx) /\ UnitInitEvent.y e = FInt (4 * dy) /\
        UnitInitEvent.location e = (FInt (4 * dx), FInt (4 * dy))) /\
     (27950 <= build ->
        UnitInitEvent.x e = FInt dx /\ UnitInitEvent.y e = FInt dy /\
        UnitInitEvent.location e = (FInt dx, FInt dy))) /\
  (forall e, UnitDiedEvent.init frames data build = Ok e ->
     data !! 3%nat = Some (FInt dx) -> data !! 4%nat = Some (FInt dy) ->
     (build < 27950 ->
        UnitDiedEvent.x e = FInt (4 * dx) /\ UnitDiedEvent.y e = FInt (4 * dy) /\
        UnitDiedEvent.location e = (FInt (4 * dx), FInt (4 * dy))) /\
     (27950 <= build ->
        UnitDiedEvent.x e = FInt dx /\ UnitDiedEvent.y e = FInt dy /\
        UnitDiedEvent.location e = (FInt dx, FInt dy))).
Proof.
  assert (Hstored : forall (x y : field) (l : field * field),
            x = FInt (if build <? 27950 then dx * 4 else dx) ->
            y = FInt (if build <? 27950 then dy * 4 else dy) ->
            l = (x, y) ->
            (build < 27950 ->
               x = FInt (4 * dx) /\ y = FInt (4 * dy) /\ l = (FInt (4 * dx), FInt (4 * dy))) /\
            (27950 <= build -> x = FInt dx /\ y = FInt dy /\ l = (FInt dx, FInt dy))).
  { intros x y l -> -> ->. destruct (Z.ltb_spec build 27950) as [Hb|Hb].
    - rewrite (Z.mul_comm dx 4), (Z.mul_comm dy 4). split; [auto | lia].
    - split; [lia | auto]. }
  split; [|split].
  - intros Hrec. split.
    + destruct (UnitBornEvent_init_Ok frames data build _ _ _ _ Hrec)
        as (e & He & _ & Hx & Hy & Hl).
      exists e. split; [exact He | exact (Hstored _ _ _ Hx Hy Hl)].
    + destruct (UnitInitEvent_init_Ok frames data build _ _ _ _ Hrec)
        as (e & He & _ & Hx & Hy & Hl).
      exists e. split; [exact He | exact (Hstored _ _ _ Hx Hy Hl)].
  - intros Hrec.
    destruct (UnitDiedEvent_init_Ok frames data build _ _ _ _ Hrec)
      as (e & He & _ & Hx & Hy & Hl).
    exists e. split; [exact He | exact (Hstored _ _ _ Hx Hy Hl)].
  - clear Hstored. repeat split; intros;
    match goal with
    | He : UnitBornEvent.init _ _ _ = Ok _ |- _ =>
        destruct (UnitBornEvent_coords _ _ _ _ _ _ He ltac:(eassumption) ltac:(eassumption))
          as (Hlt & Hge & Hl)
    | He : UnitInitEvent.init _ _ _ = Ok _ |- _ =>
        destruct (UnitInitEvent_coords _ _ _ _ _ _ He ltac:(eassumption) ltac:(eassumption))
          as (Hlt & Hge & Hl)
    | He : UnitDiedEvent.init _ _ _ = Ok _ |- _ =>
        destruct (UnitDiedEvent_coords _ _ _ _ _ _ He ltac:(eassumption) ltac:(eassumption))
          as (Hlt & Hge & Hl)
    end;
    rewrite ?Hl;
    first
      [ destruct (Hlt ltac:(assumption)) as [Hx Hy]; cbn [py_mul] in Hx, Hy;
        injection Hx as Hx; injection Hy as Hy; rewrite <- ?Hx, <- ?Hy;
        rewrite ?(Z.mul_comm dx 4), ?(Z.mul_comm dy 4); reflexivity
      | destruct (Hge ltac:(assumption)) as [Hx Hy]; rewrite ?Hx, ?Hy; reflexivity ].
Qed.

(** ** The position-delta loop *)

Lemma subscript_elems (items : field) (n i : nat) :
  py_len items = Ok n -> subscript items i = getitem (elems items) i.
Proof. destruct items; simpl; intros H; try discriminate H; reflexivity. Qed.

Lemma py_len_elems (items : field) (n : nat) :
  py_len items = Ok n -> length (elems items) = n.
Proof.
  destruct items; simpl; intros H; try discriminate H; injection H as <-;
    [apply length_fmap | reflexivity].
Qed.

Lemma getitem_lt (l : list Z) (i : nat) :
  (i < length l)%nat -> getitem l i = Ok (slot l i).
Proof.
  intros H. destruct (lookup_lt_is_Some_2 l i H) as [x Hx].
  unfold getitem, slot. rewrite Hx, (nth_lookup_Some _ _ 0 _ Hx). reflexivity.
Qed.

Lemma py_range_3 (k r : nat) :
  (r < 3)%nat ->
  py_range 0 (3 * k + r) 3 =
    (fun j => 0 + j * 3)%nat <$> seq 0 (if Nat.eqb r 0 then k else S k).
Proof.
  intros Hr. unfold py_range. f_equal. f_equal.
  replace (3 * k + r - 0 + (3 - 1))%nat with ((r + 2) + k * 3)%nat by lia.
  rewrite Nat.div_add by lia.
  destruct r as [|[|[|r]]]; try lia; reflexivity.
Qed.

Lemma loop_app (build : Z) (items : field) (xs ys : list nat)
    (st : field * list (field * (Z * Z))) :
  UnitPositionsEvent.loop build items (xs ++ ys) st =
    UnitPositionsEvent.loop build items xs st ≫= UnitPositionsEvent.loop build items ys.
Proof.
  revert st. induction xs as [|i xs IH]; intros st; simpl; [reflexivity|].
  destruct (UnitPositionsEvent.step build items i st); simpl; [apply IH | reflexivity].
Qed.

Lemma step_full (build first : Z) (items : field) (len j : nat)
    (acc : list (field * (Z * Z))) :
  py_len items = Ok len -> (3 * j + 3 <= len)%nat ->
  UnitPositionsEvent.step build items (0 + j * 3)
      (FInt (first + delta_sum (elems items) j), acc) =
    Ok (FInt (first + delta_sum (elems items) (S j)),
        acc ++ [entry build first (elems items) j]).
Proof.
  intros Hlen Hj. pose proof (py_len_elems _ _ Hlen) as Hl.
  unfold UnitPositionsEvent.step.
  rewrite !(subscript_elems _ _ _ Hlen), !getitem_lt by lia.
  cbn [mbind result_bind py_iadd]. unfold entry. cbn [delta_sum].
  replace (0 + j * 3)%nat with (3 * j)%nat by lia.
  rewrite Z.add_assoc.
  destruct (build <? 27950); rewrite ?Z.mul_1_r; reflexivity.
Qed.

Lemma loop_full (build first : Z) (items : field) (len n a : nat)
    (acc : list (field * (Z * Z))) :
  py_len items = Ok len -> (3 * (a + n) <= len)%nat ->
  UnitPositionsEvent.loop build items ((fun j => 0 + j * 3)%nat <$> seq a n)
      (FInt (first + delta_sum (elems items) a), acc) =
    Ok (FInt (first + delta_sum (elems items) (a + n)),
        acc ++ (entry build first (elems items) <$> seq a n)).
Proof.
  intros Hlen. revert a acc. induction n as [|n IH]; intros a acc Hn.
  - simpl. rewrite Nat.add_0_r, app_nil_r. reflexivity.
  - cbn [seq fmap list_fmap UnitPositionsEvent.loop].
    rewrite (step_full _ _ _ len) by (assumption || lia).
    cbn [mbind result_bind]. rewrite IH by lia.
    rewrite <- app_assoc. replace (S a + n)%nat with (a + S n)%nat by lia. reflexivity.
Qed.

(** C3: for a record holding [first_unit_index] and a flat sequence of [3k]
    integers, the constructor returns an event whose [positions] has exactly
    [k] entries, in input order; entry [i] carries [first_unit_index] plus the
    sum of the first elements of windows [0..i], and the second and third
    elements of window [i], each times 4 when [build < 27950] and as they are
    otherwise. With [first_unit_index = 100] and items [5, 10, 20, 3, 15, 25]
    the list is [(105, (10, 20)), (108, (15, 25))] at build 27950 and
    [(105, (40, 80)), (108, (60, 100))] below it. *)
Theorem positions_decoded (frames first build : Z) (data : list field)
    (items : list Z) (k : nat) :
  data !! 0%nat = Some (FInt first) -> data !! 1%nat = Some (FInts items) ->
  length items = (3 * k)%nat ->
  (exists e, UnitPositionsEvent.init frames data build = Ok e /\
     length (UnitPositionsEvent.positions e) = k /\
     forall i, (i < k)%nat ->
       UnitPositionsEvent.positions e !! i =
         Some (FInt (first + delta_sum items (S i)),
               (if build <? 27950
                then (slot items (3 * i + 1)%nat * 4, slot items (3 * i + 2)%nat * 4)
                else (slot items (3 * i + 1)%nat, slot items (3 * i + 2)%nat)))) /\
  (exists e, UnitPositionsEvent.init frames
               [FInt 100; FInts [5; 10; 20; 3; 15; 25]] 27950 = Ok e /\
     UnitPositionsEvent.positions e =
       [(FInt 105, (10, 20)); (FInt 108, (15, 25))]) /\
  (exists e, UnitPositionsEvent.init frames
               [FInt 100; FInts [5; 10; 20; 3; 15; 25]] 27949 = Ok e /\
     UnitPositionsEvent.positions e =
       [(FInt 105, (40, 80)); (FInt 108, (60, 100))]).
Proof.
  intros D0 D1 Hlen. split; [|split].
  - unfold UnitPositionsEvent.init.
    rewrite TrackerEvent_init_Ok. cbn [mbind result_bind].
    rewrite (proj2 (getfield_Ok data 0 _) D0), (proj2 (getfield_Ok data 1 _) D1).
    cbn [mbind result_bind py_len]. rewrite Hlen.
    replace (3 * k)%nat with (3 * k + 0)%nat by lia.
    rewrite py_range_3 by lia. cbn [Nat.eqb].
    pose proof (loop_full build first (FInts items) (3 * k) k 0 []) as Hl.
    cbn [delta_sum elems] in Hl. rewrite Z.add_0_r in Hl.
    rewrite Hl by (simpl; (f_equal; lia) || lia).
    cbn [mbind result_bind]. eexists. split; [reflexivity|]. cbn.
    split; [rewrite length_fmap, length_seq; reflexivity|].
    intros i Hi. rewrite list_lookup_fmap, lookup_seq_lt by assumption.
    cbn. unfold entry. destruct (build <? 27950); rewrite ?Z.mul_1_r; reflexivity.
  - unfold UnitPositionsEvent.init. rewrite TrackerEvent_init_Ok.
    eexists. split; reflexivity.
  - unfold UnitPositionsEvent.init. rewrite TrackerEvent_init_Ok.
    eexists. split; reflexivity.
Qed.

(** C4 (amended): when the record's first field is an integer and its
    sequence of items has a length that is not a multiple of 3, the
    constructor fails with Python's IndexError, raised by the read past the
    end of the incomplete last window. *)
Theorem positions_incomplete_window (frames first build : Z) (data : list field)
    (items : field) (n : nat) :
  data !! 0%nat = Some (FInt first) -> data !! 1%nat = Some items ->
  py_len items = Ok n -> (n mod 3 <> 0)%nat ->
  UnitPositionsEvent.init frames data build = Raise IndexError.
Proof.
  intros D0 D1 Hlen Hn.
  pose proof (py_len_elems _ _ Hlen) as Hl.
  pose proof (Nat.div_mod_eq n 3) as Hdm.
  pose proof (Nat.mod_upper_bound n 3 ltac:(lia)) as Hr.
  set (k := (n / 3)%nat) in *. set (r := (n mod 3)%nat) in *.
  clearbody k r.
  unfold UnitPositionsEvent.init.
  rewrite TrackerEvent_init_Ok. cbn [mbind result_bind].
  rewrite (proj2 (getfield_Ok data 0 _) D0), (proj2 (getfield_Ok data 1 _) D1).
  cbn [mbind result_bind]. rewrite Hlen. cbn [mbind result_bind].
  rewrite Hdm, py_range_3 by assumption.
  destruct (Nat.eqb_spec r 0) as [|_]; [contradiction|].
  rewrite seq_S, fmap_app, loop_app.
  pose proof (loop_full build first items n k 0 []) as Hloop.
  cbn [delta_sum] in Hloop. rewrite Z.add_0_r in Hloop.
  rewrite Hloop by (assumption || lia).
  cbn [mbind result_bind fmap list_fmap UnitPositionsEvent.loop UnitPositionsEvent.step].
  rewrite !(subscript_elems _ _ _ Hlen).
  rewrite (getitem_lt _ (0 + (0 + k) * 3)%nat) by lia. cbn [mbind result_bind py_iadd].
  destruct (Nat.eq_dec r 1%nat) as [Hr1|Hr1].
  - rewrite (proj2 (getitem_IndexError (elems items) (0 + (0 + k) * 3 + 1)%nat)) by lia.
    reflexivity.
  - rewrite (getitem_lt _ (0 + (0 + k) * 3 + 1)%nat) by lia. cbn [mbind result_bind].
    rewrite (proj2 (getitem_IndexError (elems items) (0 + (0 + k) * 3 + 2)%nat)) by lia.
    reflexivity.
Qed.

(** C4 as stated fails: a four-item sequence makes the constructor raise
    IndexError, which is not the specification's MalformedRecord. *)
Lemma positions_not_MalformedRecord :
  UnitPositionsEvent.init 0 [FInt 100; FInts [5; 10; 20; 3]] 27950 = Raise IndexError /\
  UnitPositionsEvent.init 0 [FInt 100; FInts [5; 10; 20; 3]] 27950 <> Raise MalformedRecord.
Proof. split; [vm_compute; reflexivity | vm_compute; discriminate]. Qed.

(** ** Friendly-fire statistics *)

Lemma ff_stat_Ok (stats : field) (i : nat) (build : Z) (o : option Z) :
  PlayerStatsEvent.ff_stat stats i build = Ok o ->
  (build < 26490 -> o = None) /\
  (26490 <= build -> exists s, subscript stats i = Ok s /\ o = Some (Z.max 0 s)).
Proof.
  unfold PlayerStatsEvent.ff_stat, PlayerStatsEvent.stat, clamp.
  destruct (Z.leb_spec 26490 build) as [Hb|Hb]; intros Hs.
  - split; [lia|]. intros _. inv_binds. inv_Ok. eauto.
  - inv_Ok. split; [reflexivity | lia].
Qed.


(** ** The killer of a dead unit *)

(** C6: a unit-died event has no killing-unit fields ([None]) when
    [build < 27950]; when [build >= 27950] its [killing_unit_index] and
    [killing_unit_recycle] are fields 5 and 6 of the record, and for an integer
    index [i] the [killing_unit_id] is [None] when [i = 0] and
    [(i << 18) | recycle] when [i] is not zero. *)
Theorem killing_unit_fields (frames build : Z) (data : list field)
    (e : UnitDiedEvent.t) :
  UnitDiedEvent.init frames data build = Ok e ->
  (build < 27950 ->
     UnitDiedEvent.killing_unit_index e = None /\
     UnitDiedEvent.killing_unit_recycle e = None /\
     UnitDiedEvent.killing_unit_id e = None) /\
  (27950 <= build ->
     exists ki kr,
       data !! 5%nat = Some ki /\ data !! 6%nat = Some kr /\
       UnitDiedEvent.killing_unit_index e = Some ki /\
       UnitDiedEvent.killing_unit_recycle e = Some kr /\
       forall i, ki = FInt i ->
         (i = 0 -> UnitDiedEvent.killing_unit_id e = None) /\
         (i <> 0 -> exists r, kr = FInt r /\
            UnitDiedEvent.killing_unit_id e = Some (Z.lor (Z.shiftl i 18) r))).
Proof.
  intros He. unfold UnitDiedEvent.init in He. inv_binds. destruct_pairs.
  injection He as <-. cbn.
  destruct (Z.ltb_spec build 27950) as [Hlt|Hge].
  - inv_binds. inv_Ok. split; [auto | lia].
  - split; [lia|]. intros _. inv_binds. inv_Ok.
    match goal with H : UnitDiedEvent.killer_fields _ = Ok _ |- _ =>
      unfold UnitDiedEvent.killer_fields in H; inv_binds; inv_Ok; rename H into Hk end.
    match goal with
    | H5 : data !! 5%nat = Some ?a, H6 : data !! 6%nat = Some ?b |- _ =>
        exists a, b; destruct (truthy a) eqn:Ht
    end.
    + inv_binds. inv_Ok. do 4 (split; [auto|]). intros i ->. split.
      * intros ->. simpl in Ht. discriminate.
      * intros Hi. simpl in *. simplify_eq.
        match goal with H : py_or _ ?b = Ok _ |- _ => destruct b; simpl in H; simplify_eq end.
        eauto.
    + inv_Ok. do 4 (split; [auto|]). intros i ->. split; [reflexivity|].
      intros Hi. simpl in Ht. apply negb_false_iff, Z.eqb_eq in Ht. contradiction.
Qed.

(** ** Frame and second *)

(** C7 (amended): the stored [second] is [int(frame / 22.4)], the binary64
    quotient of the wrapped frame counter by 22.4 truncated to an integer;
    it is the integer quotient of [5 * frame] by 112. *)
Theorem second_truncated (cls : string) (frames : Z) :
  exists e, TrackerEvent.init cls frames = Ok e /\
    (q ← int_truediv_float (TrackerEvent.frame e) f22_4; py_int q)
      = Ok (TrackerEvent.second e) /\
    TrackerEvent.second e = 5 * TrackerEvent.frame e / 112.
Proof.
  rewrite TrackerEvent_init_Ok. eexists. split; [reflexivity|]. cbn.
  split; [|reflexivity].
  apply int_div_22_4, Z.mod_pos_bound. lia.
Qed.

(** C7 as stated fails: at frame 1 the stored second is the integer 0, while
    the binary64 quotient 1 / 22.4 is not zero. *)
Lemma second_not_quotient :
  exists e, TrackerEvent.init "TrackerEvent" 1 = Ok e /\
    TrackerEvent.second e = 0 /\
    float_of_int (TrackerEvent.second e)
      <> int_truediv_float (TrackerEvent.frame e) f22_4.
Proof.
  eexists. split; [vm_compute; reflexivity|]. split; [reflexivity|].
  vm_compute. discriminate.
Qed.

(** C8: the stored frame is the raw frame value modulo 2^32, whatever the raw
    value; a raw value of 2^32 + 7 is stored as 7. *)
Theorem frame_wraps (cls : string) (frames : Z) :
  (exists e, TrackerEvent.init cls frames = Ok e /\
     TrackerEvent.frame e = frames mod 2 ^ 32) /\
  (exists e, TrackerEvent.init cls (2 ^ 32 + 7) = Ok e /\ TrackerEvent.frame e = 7).
Proof.
  split; rewrite TrackerEvent_init_Ok; eexists; split; reflexivity.
Qed.

(** ** Nominal players *)

(** C9: the [pid] accessor of a unit-born event is its [control_pid], field 3
    of the record; the [pid] accessor of a unit-init event is its
    [upkeep_pid], field 4 of the record. Built from the same record the two
    events store the same [control_pid] and [upkeep_pid], and differ in which
    of them [pid] answers. *)
Theorem pid_accessors (frames build : Z) (data : list field)
    (eb : UnitBornEvent.t) (ei : UnitInitEvent.t) :
  UnitBornEvent.init frames data build = Ok eb ->
  UnitInitEvent.init frames data build = Ok ei ->
  UnitBornEvent.pid eb = UnitBornEvent.control_pid eb /\
  data !! 3%nat = Some (UnitBornEvent.pid eb) /\
  UnitInitEvent.pid ei = UnitInitEvent.upkeep_pid ei /\
  data !! 4%nat = Some (UnitInitEvent.pid ei) /\
  UnitInitEvent.control_pid ei = UnitBornEvent.control_pid eb /\
  UnitInitEvent.upkeep_pid ei = UnitBornEvent.upkeep_pid eb.
Proof.
  intros Hb Hi. unfold UnitBornEvent.init in Hb. unfold UnitInitEvent.init in Hi.
  inv_binds. destruct_pairs. inv_Ok. cbn. repeat split; assumption.
Qed.

(** C10: whatever a unit-positions event holds, its [player] accessor and its
    [pid] accessor both answer -1. *)
Theorem positions_player_sentinel (e : UnitPositionsEvent.t) :
  UnitPositionsEvent.player e = -1 /\ UnitPositionsEvent.pid e = -1.
Proof. split; reflexivity. Qed.

Lemma unit_id_round_trip_witness :
  decode_unit_id (Z.lor (Z.shiftl 5 18) 7) = (5, 7) /\
  (exists e, UnitBornEvent.init 16 sample_born 27950 = Ok e /\
     decode_unit_id (UnitBornEvent.unit_id e) = (5, 7)) /\
  (exists e, UnitInitEvent.init 16 sample_born 27950 = Ok e /\
     decode_unit_id (UnitInitEvent.unit_id e) = (5, 7)) /\
  (exists e, UnitDiedEvent.init 16 sample_died 27950 = Ok e /\
     decode_unit_id (UnitDiedEvent.unit_id e) = (5, 7)) /\
  (exists e, UnitDoneEvent.init 16 sample_done 27950 = Ok e /\
     decode_unit_id (UnitDoneEvent.unit_id e) = (5, 7)) /\
  (exists e, UnitOwnerChangeEvent.init 16 sample_owner_change 27950 = Ok e /\
     decode_unit_id (UnitOwnerChangeEvent.unit_id e) = (5, 7)) /\
  (exists e, UnitTypeChangeEvent.init 16 sample_type_change 27950 = Ok e /\
     decode_unit_id (UnitTypeChangeEvent.unit_id e) = (5, 7)).
Proof.
  destruct (unit_id_round_trip 5 7 ltac:(lia) ltac:(lia)) as [H1 H2].
  split; [exact H1|].
  assert (Hborn : born_record sample_born 5 7 10 20).
  { repeat split; try reflexivity; try (eexists; reflexivity).
    eexists; eexists; split; [reflexivity | vm_compute; reflexivity]. }
  assert (Hdied : died_record 27950 sample_died 5 7 10 20).
  { repeat split; try reflexivity; try (eexists; reflexivity).
    intros _. exists (FInt 9), (FInt 3). repeat split; try reflexivity.
    intros _. exists 9, 3. split; reflexivity. }
  destruct (H2 16 sample_born 27950 eq_refl eq_refl) as ((_ & _ & _ & Hb & _) & _).
  destruct (Hb 10 20 Hborn) as [Hbe Hie].
  destruct (H2 16 sample_died 27950 eq_refl eq_refl) as ((_ & _ & _ & _ & Hd) & _).
  destruct (H2 16 sample_done 27950 eq_refl eq_refl) as ((Hdone & _) & _).
  destruct (H2 16 sample_owner_change 27950 eq_refl eq_refl) as ((_ & Hoc & _) & _).
  destruct (H2 16 sample_type_change 27950 eq_refl eq_refl) as ((_ & _ & Htc & _) & _).
  split; [exact Hbe|]. split; [exact Hie|]. split; [exact (Hd 10 20 Hdied)|].
  split; [exact Hdone|].
  split; [apply Hoc; eexists; reflexivity|].
  apply Htc. eexists; eexists; split; [reflexivity | vm_compute; reflexivity].
Defined.

Lemma coordinates_normalized_witness :
  ((exists e, UnitBornEvent.init 16 sample_born 27949 = Ok e /\
      UnitBornEvent.x e = FInt 40 /\ UnitBornEvent.y e = FInt 80 /\
      UnitBornEvent.location e = (FInt 40, FInt 80)) /\
   (exists e, UnitInitEvent.init 16 sample_born 27949 = Ok e /\
      UnitInitEvent.x e = FInt 40 /\ UnitInitEvent.y e = FInt 80 /\
      UnitInitEvent.location e = (FInt 40, FInt 80)) /\
   (exists e, UnitDiedEvent.init 16 sample_died 27949 = Ok e /\
      UnitDiedEvent.x e = FInt 40 /\ UnitDiedEvent.y e = FInt 80 /\
      UnitDiedEvent.location e = (FInt 40, FInt 80))) /\
  ((exists e, UnitBornEvent.init 16 sample_born 27950 = Ok e /\
      UnitBornEvent.x e = FInt 10 /\ UnitBornEvent.y e = FInt 20 /\
      UnitBornEvent.location e = (FInt 10, FInt 20)) /\
   (exists e, UnitInitEvent.init 16 sample_born 27950 = Ok e /\
      UnitInitEvent.x e = FInt 10 /\ UnitInitEvent.y e = FInt 20 /\
      UnitInitEvent.location e = (FInt 10, FInt 20)) /\
   (exists e, UnitDiedEvent.init 16 sample_died 27950 = Ok e /\
      UnitDiedEvent.x e = FInt 10 /\ UnitDiedEvent.y e = FInt 20 /\
      UnitDiedEvent.location e = (FInt 10, FInt 20))).
Proof.
  assert (Hborn : born_record sample_born 5 7 10 20).
  { repeat split; try reflexivity; try (eexists; reflexivity).
    eexists; eexists; split; [reflexivity | vm_compute; reflexivity]. }
  assert (Hdied : forall build, died_record build sample_died 5 7 10 20).
  { intros build. repeat split; try reflexivity; try (eexists; reflexivity).
    intros _. exists (FInt 9), (FInt 3). repeat split; try reflexivity.
    intros _. exists 9, 3. split; reflexivity. }
  split.
  - destruct (coordinates_normalized 16 27949 5 7 10 20 sample_born) as (Hb & _).
    destruct (Hb Hborn) as ((eb & Heb & Hblt & _) & (ei & Hei & Hilt & _)).
    destruct (coordinates_normalized 16 27949 5 7 10 20 sample_died) as (_ & Hd & _).
    destruct (Hd (Hdied 27949)) as (ed & Hed & Hdlt & _).
    split; [exists eb; split; [exact Heb | exact (Hblt ltac:(lia))]|].
    split; [exists ei; split; [exact Hei | exact (Hilt ltac:(lia))]|].
    exists ed; split; [exact Hed | exact (Hdlt ltac:(lia))].
  - destruct (coordinates_normalized 16 27950 5 7 10 20 sample_born) as (Hb & _).
    destruct (Hb Hborn) as ((eb & Heb & _ & Hbge) & (ei & Hei & _ & Hige)).
    destruct (coordinates_normalized 16 27950 5 7 10 20 sample_died) as (_ & Hd & _).
    destruct (Hd (Hdied 27950)) as (ed & Hed & _ & Hdge).
    split; [exists eb; split; [exact Heb | exact (Hbge ltac:(lia))]|].
    split; [exists ei; split; [exact Hei | exact (Hige ltac:(lia))]|].
    exists ed; split; [exact Hed | exact (Hdge ltac:(lia))].
Defined.

Lemma positions_decoded_witness :
  exists e, UnitPositionsEvent.init 16 [FInt 100; FInts [5; 10; 20; 3; 15; 25]] 27950 = Ok e /\
    length (UnitPositionsEvent.positions e) = 2%nat.
Proof.
  destruct (positions_decoded 16 100 27950 [FInt 100; FInts [5; 10; 20; 3; 15; 25]]
              [5; 10; 20; 3; 15; 25] 2 eq_refl eq_refl eq_refl)
    as ((e & He & Hn & _) & _).
  exists e. split; assumption.
Defined.

Lemma positions_incomplete_window_witness :
  UnitPositionsEvent.init 16 [FInt 100; FInts [5; 10; 20; 3; 15]] 27950 = Raise IndexError.
Proof.
  apply (positions_incomplete_window 16 100 27950 _ (FInts [5; 10; 20; 3; 15]) 5);
    [reflexivity | reflexivity | reflexivity | vm_compute; discriminate].
Defined.


Lemma killing_unit_fields_witness :
  exists e, UnitDiedEvent.init 16 sample_died 27950 = Ok e /\
    UnitDiedEvent.killing_unit_index e = Some (FInt 9) /\
    UnitDiedEvent.killing_unit_recycle e = Some (FInt 3) /\
    UnitDiedEvent.killing_unit_id e = Some 2359299.
Proof.
  assert (Hex : exists e, UnitDiedEvent.init 16 sample_died 27950 = Ok e)
    by (vm_compute; eexists; reflexivity).
  destruct Hex as [e He]. exists e. split; [exact He|].
  destruct (killing_unit_fields 16 27950 sample_died e He) as [_ H].
  destruct (H ltac:(lia)) as (ki & kr & H5 & H6 & Hi & Hr & Hid).
  injection H5 as <-. injection H6 as <-.
  destruct (Hid 9 eq_refl) as [_ Hnz].
  destruct (Hnz ltac:(lia)) as (r & Hr' & Hk). injection Hr' as <-.
  repeat split; assumption.
Defined.

Lemma pid_accessors_witness :
  exists eb ei,
    UnitBornEvent.init 16 sample_born 27950 = Ok eb /\
    UnitInitEvent.init 16 sample_born 27950 = Ok ei /\
    UnitBornEvent.pid eb = FInt 1 /\ UnitInitEvent.pid ei = FInt 2.
Proof.
  assert (Hb : exists e, UnitBornEvent.init 16 sample_born 27950 = Ok e)
    by (vm_compute; eexists; reflexivity).
  assert (Hi : exists e, UnitInitEvent.init 16 sample_born 27950 = Ok e)
    by (vm_compute; eexists; reflexivity).
  destruct Hb as [eb Hb]. destruct Hi as [ei Hi]. exists eb, ei.
  destruct (pid_accessors 16 27950 sample_born eb ei Hb Hi) as (_ & H3 & _ & H4 & _).
  injection H3 as <-. injection H4 as <-. repeat split; assumption.
Defined.

(** * Further properties of the event constructors *)

(** ** Unit identity *)

Lemma UnitBornEvent_unit_id (frames build index recycle : Z) (data : list field)
    (e : UnitBornEvent.t) :
  UnitBornEvent.init frames data build = Ok e ->
  data !! 0%nat = Some (FInt index) -> data !! 1%nat = Some (FInt recycle) ->
  UnitBornEvent.unit_id e = Z.lor (Z.shiftl index 18) recycle.
Proof.
  intros He D0 D1. unfold UnitBornEvent.init in He. inv_binds. destruct_pairs.
  injection He as <-; cbn. eapply unit_id_prefix; eassumption.
Qed.

Lemma UnitDiedEvent_unit_id (frames build index recycle : Z) (data : list field)
    (e : UnitDiedEvent.t) :
  UnitDiedEvent.init frames data build = Ok e ->
  data !! 0%nat = Some (FInt index) -> data !! 1%nat = Some (FInt recycle) ->
  UnitDiedEvent.unit_id e = Z.lor (Z.shiftl index 18) recycle.
Proof.
  intros He D0 D1. unfold UnitDiedEvent.init in He. inv_binds. destruct_pairs.
  injection He as <-; cbn. eapply unit_id_prefix; eassumption.
Qed.

Lemma compose_injective (i1 r1 i2 r2 : Z) :
  0 <= r1 < 2 ^ 18 -> 0 <= r2 < 2 ^ 18 ->
  Z.lor (Z.shiftl i1 18) r1 = Z.lor (Z.shiftl i2 18) r2 -> i1 = i2 /\ r1 = r2.
Proof.
  intros H1 H2 Heq.
  pose proof (decode_compose i1 r1 H1) as E1.
  pose proof (decode_compose i2 r2 H2) as E2.
  rewrite Heq, E2 in E1. injection E1 as -> ->. auto.
Qed.

(** X1: a unit-died event carries the same [unit_id] as a unit-born event
    exactly when their records agree on index and recycle (recycle values
    below 2^18): the composite id identifies the pair. *)
Theorem born_died_same_unit (frames1 frames2 build1 build2 i1 r1 i2 r2 : Z)
    (data1 data2 : list field) (eb : UnitBornEvent.t) (ed : UnitDiedEvent.t) :
  UnitBornEvent.init frames1 data1 build1 = Ok eb ->
  UnitDiedEvent.init frames2 data2 build2 = Ok ed ->
  data1 !! 0%nat = Some (FInt i1) -> data1 !! 1%nat = Some (FInt r1) ->
  data2 !! 0%nat = Some (FInt i2) -> data2 !! 1%nat = Some (FInt r2) ->
  0 <= r1 < 2 ^ 18 -> 0 <= r2 < 2 ^ 18 ->
  (UnitBornEvent.unit_id eb = UnitDiedEvent.unit_id ed <-> i1 = i2 /\ r1 = r2).
Proof.
  intros Hb Hd B0 B1 D0 D1 Hr1 Hr2.
  rewrite (UnitBornEvent_unit_id _ _ _ _ _ _ Hb B0 B1).
  rewrite (UnitDiedEvent_unit_id _ _ _ _ _ _ Hd D0 D1).
  split; [apply compose_injective; assumption | intros [-> ->]; reflexivity].
Qed.

Lemma born_died_same_unit_witness :
  exists eb ed,
    UnitBornEvent.init 16 sample_born 27950 = Ok eb /\
    UnitDiedEvent.init 400 sample_died 27950 = Ok ed /\
    UnitBornEvent.unit_id eb = UnitDiedEvent.unit_id ed.
Proof.
  assert (Hb : exists e, UnitBornEvent.init 16 sample_born 27950 = Ok e)
    by (vm_compute; eexists; reflexivity).
  assert (Hd : exists e, UnitDiedEvent.init 400 sample_died 27950 = Ok e)
    by (vm_compute; eexists; reflexivity).
  destruct Hb as [eb Hb]. destruct Hd as [ed Hd]. exists eb, ed.
  split; [exact Hb|]. split; [exact Hd|].
  apply (born_died_same_unit 16 400 27950 27950 5 7 5 7 _ _ eb ed Hb Hd
           eq_refl eq_refl eq_refl eq_refl); [lia | lia | split; reflexivity].
Defined.

(** X2: the constructors do not mask the recycle field: for any index and
    recycle the composed id decodes to the index or-ed with the bits of
    recycle above bit 17, and to the low 18 bits of recycle. An id built from
    a recycle below 2^18 is [index * 2^18 + recycle]. *)
Theorem unit_id_unmasked (frames build index recycle : Z) (data : list field)
    (e : UnitBornEvent.t) :
  UnitBornEvent.init frames data build = Ok e ->
  data !! 0%nat = Some (FInt index) -> data !! 1%nat = Some (FInt recycle) ->
  decode_unit_id (UnitBornEvent.unit_id e) =
    (Z.lor index (Z.shiftr recycle 18), Z.land recycle 262143) /\
  (0 <= recycle < 2 ^ 18 -> UnitBornEvent.unit_id e = index * 2 ^ 18 + recycle).
Proof.
  intros He D0 D1. rewrite (UnitBornEvent_unit_id _ _ _ _ _ _ He D0 D1). split.
  - unfold decode_unit_id. f_equal.
    + rewrite Z.shiftr_lor, Z.shiftr_shiftl_l, Z.sub_diag, Z.shiftl_0_r by lia.
      reflexivity.
    + change 262143 with (Z.ones 18).
      rewrite Z.land_lor_distr_l, (Z.land_ones (Z.shiftl index 18)) by lia.
      rewrite Z.shiftl_mul_pow2, Z.mod_mul by lia. reflexivity.
  - intros Hr. rewrite Z.shiftl_mul_pow2 by lia.
    rewrite <- Z.lxor_lor, <- Z.add_nocarry_lxor; [reflexivity| |].
    all: apply Z.bits_inj'; intros n Hn; rewrite Z.land_spec, Z.bits_0;
      destruct (Z_lt_le_dec n 18) as [Hlt|Hge];
      [ rewrite Z.mul_pow2_bits_low by lia; reflexivity
      | rewrite (Z.bits_above_log2 recycle n), andb_false_r; [reflexivity|lia|] ];
      destruct (Z.eq_dec recycle 0) as [->|]; [simpl; lia|];
      apply Z.log2_lt_pow2; [lia|];
      apply Z.lt_le_trans with (2 ^ 18); [lia | apply Z.pow_le_mono_r; lia].
Qed.

Lemma unit_id_unmasked_witness :
  exists e,
    UnitBornEvent.init 16
      [FInt 0; FInt 262144; FBytes [x4d]; FInt 1; FInt 1; FInt 0; FInt 0] 27950 = Ok e /\
    decode_unit_id (UnitBornEvent.unit_id e) = (1, 0).
Proof.
  assert (Hex : exists e, UnitBornEvent.init 16
      [FInt 0; FInt 262144; FBytes [x4d]; FInt 1; FInt 1; FInt 0; FInt 0] 27950 = Ok e)
    by (vm_compute; eexists; reflexivity).
  destruct Hex as [e He]. exists e. split; [exact He|].
  exact (proj1 (unit_id_unmasked 16 27950 0 262144 _ e He eq_refl eq_refl)).
Defined.

(** ** Frames and seconds *)

(** X3: every tracker event is constructed, whatever the raw frame value
    (negative values included); its frame lies in [0, 2^32), its second in
    [0, 191739611], and raw values that differ by a multiple of 2^32 give the
    same event. *)
Theorem frame_range_periodic (cls : string) (frames k : Z) :
  exists e, TrackerEvent.init cls frames = Ok e /\
    0 <= TrackerEvent.frame e < 2 ^ 32 /\
    0 <= TrackerEvent.second e <= 191739611 /\
    TrackerEvent.init cls (frames + k * 2 ^ 32) = Ok e.
Proof.
  rewrite !TrackerEvent_init_Ok. eexists. split; [reflexivity|]. cbn.
  pose proof (Z.mod_pos_bound frames (2 ^ 32) ltac:(lia)) as Hf.
  split; [exact Hf|]. split.
  - split; [apply Z.div_pos; lia|].
    apply Z.lt_succ_r, Z.div_lt_upper_bound; lia.
  - rewrite Z.mod_add by lia. reflexivity.
Qed.

(** X4: the stored second brackets the frame at 22.4 frames per second,
    [22.4 * second <= frame < 22.4 * (second + 1)] (in fifths:
    [112 * second <= 5 * frame < 112 * (second + 1)]), and it is monotone in
    the stored frame. *)
Theorem second_brackets_frame (cls1 cls2 : string) (frames1 frames2 : Z)
    (e1 e2 : TrackerEvent.t) :
  TrackerEvent.init cls1 frames1 = Ok e1 ->
  TrackerEvent.init cls2 frames2 = Ok e2 ->
  112 * TrackerEvent.second e1 <= 5 * TrackerEvent.frame e1
    < 112 * (TrackerEvent.second e1 + 1) /\
  (TrackerEvent.frame e1 <= TrackerEvent.frame e2 ->
   TrackerEvent.second e1 <= TrackerEvent.second e2).
Proof.
  rewrite !TrackerEvent_init_Ok. intros H1 H2.
  injection H1 as <-. injection H2 as <-. cbn.
  set (f1 := frames1 mod 2 ^ 32). set (f2 := frames2 mod 2 ^ 32).
  pose proof (Z.div_mod (5 * f1) 112 ltac:(lia)).
  pose proof (Z.mod_pos_bound (5 * f1) 112 ltac:(lia)).
  split; [lia|]. intros Hle. apply Z.div_le_mono; lia.
Qed.

Lemma second_brackets_frame_witness :
  exists e1 e2,
    TrackerEvent.init "UnitBornEvent" 2239 = Ok e1 /\
    TrackerEvent.init "UnitDiedEvent" 2240 = Ok e2 /\
    TrackerEvent.second e1 = 99 /\ TrackerEvent.second e2 = 100 /\
    112 * TrackerEvent.second e1 <= 5 * TrackerEvent.frame e1
      < 112 * (TrackerEvent.second e1 + 1).
Proof.
  exists {| TrackerEvent.frame := 2239; TrackerEvent.second := 99;
            TrackerEvent.name := "UnitBornEvent" |},
         {| TrackerEvent.frame := 2240; TrackerEvent.second := 100;
            TrackerEvent.name := "UnitDiedEvent" |}.
  assert (H1 : TrackerEvent.init "UnitBornEvent" 2239 = Ok
            {| TrackerEvent.frame := 2239; TrackerEvent.second := 99;
               TrackerEvent.name := "UnitBornEvent" |}) by (vm_compute; reflexivity).
  assert (H2 : TrackerEvent.init "UnitDiedEvent" 2240 = Ok
            {| TrackerEvent.frame := 2240; TrackerEvent.second := 100;
               TrackerEvent.name := "UnitDiedEvent" |}) by (vm_compute; reflexivity).
  split; [exact H1|]. split; [exact H2|]. split; [reflexivity|]. split; [reflexivity|].
  exact (proj1 (second_brackets_frame _ _ _ _ _ _ H1 H2)).
Defined.

(** ** Message events *)

Lemma int_truediv_22_4_Ok (f : Z) :
  0 <= f < 2 ^ 53 -> exists q, int_truediv_float f f22_4 = Ok q.
Proof.
  intros Hf. destruct f as [|p|p]; [eexists; reflexivity| |lia].
  pose proof (digits2_pos_bounds p) as Hd.
  set (d := Zpos (digits2_pos p)) in *.
  assert (Hd53 : 0 < d <= 53).
  { split; [subst d; lia|].
    destruct (Z_le_gt_dec d 53) as [|Hgt]; [assumption|exfalso].
    assert (2 ^ 53 <= 2 ^ (d - 1)) by (apply Z.pow_le_mono_r; lia). lia. }
  destruct (float_of_int_exact p) as (mx & Hx & _ & Hr); [lia|].
  unfold int_truediv_float. rewrite Hx. cbn. eauto.
Qed.

(** X5: a message event keeps the raw frame (no wrap) and a floating-point
    second; for a frame below 2^32 the tracker event of the same frame stores
    that second truncated to an integer. *)
Theorem message_second_vs_tracker (cls : string) (frame : Z) (pid : field) :
  0 <= frame < 2 ^ 53 ->
  exists m t,
    MessageEvent.init cls frame pid = Ok m /\
    TrackerEvent.init cls frame = Ok t /\
    MessageEvent.frame m = frame /\
    TrackerEvent.frame t = frame mod 2 ^ 32 /\
    (frame < 2 ^ 32 -> py_int (MessageEvent.second m) = Ok (TrackerEvent.second t)).
Proof.
  intros Hf. destruct (int_truediv_22_4_Ok frame Hf) as [q Hq].
  unfold MessageEvent.init. rewrite Hq, TrackerEvent_init_Ok. cbn [mbind result_bind].
  do 2 eexists. do 4 (split; [reflexivity|]). cbn.
  intros Hlt. rewrite Z.mod_small by lia.
  pose proof (int_div_22_4 frame ltac:(lia)) as H.
  rewrite Hq in H. exact H.
Qed.

Lemma message_second_vs_tracker_witness :
  exists m t,
    MessageEvent.init "ChatEvent" 4294967303 (FInt 1) = Ok m /\
    TrackerEvent.init "ChatEvent" 4294967303 = Ok t /\
    MessageEvent.frame m = 4294967303 /\
    TrackerEvent.frame t = 7.
Proof.
  destruct (message_second_vs_tracker "ChatEvent" 4294967303 (FInt 1) ltac:(lia))
    as (m & t & Hm & Ht & Hfm & Hft & _).
  exists m, t. repeat split; assumption.
Defined.

(** X6: of the three audience flags of a chat event and of a ping event at
    most one is set, and one is set exactly when the target is the integer
    0, 2 or 4; a ping's [location] is its [(x, y)]. *)
Theorem audience_flags (frame : Z) (pid target x y : field) (text : list Z) :
  (forall e, ChatEvent.init frame pid target text = Ok e ->
     (ChatEvent.to_all e && ChatEvent.to_allies e = false) /\
     (ChatEvent.to_all e && ChatEvent.to_observers e = false) /\
     (ChatEvent.to_allies e && ChatEvent.to_observers e = false) /\
     (ChatEvent.to_all e || ChatEvent.to_allies e || ChatEvent.to_observers e = true
        <-> target = FInt 0 \/ target = FInt 2 \/ target = FInt 4)) /\
  (forall e, PingEvent.init frame pid target x y = Ok e ->
     (PingEvent.to_all e && PingEvent.to_allies e = false) /\
     (PingEvent.to_all e && PingEvent.to_observers e = false) /\
     (PingEvent.to_allies e && PingEvent.to_observers e = false) /\
     (PingEvent.to_all e || PingEvent.to_allies e || PingEvent.to_observers e = true
        <-> target = FInt 0 \/ target = FInt 2 \/ target = FInt 4) /\
     PingEvent.location e = (x, y)).
Proof.
  assert (Hflags :
    (py_eq_int target 0 && py_eq_int target 2 = false) /\
    (py_eq_int target 0 && py_eq_int target 4 = false) /\
    (py_eq_int target 2 && py_eq_int target 4 = false) /\
    (py_eq_int target 0 || py_eq_int target 2 || py_eq_int target 4 = true
       <-> target = FInt 0 \/ target = FInt 2 \/ target = FInt 4)).
  { destruct target as [z| | |]; cbn.
    - destruct (Z.eqb_spec z 0), (Z.eqb_spec z 2), (Z.eqb_spec z 4); subst;
        cbn; repeat split; try lia; try discriminate; auto;
        intros [E|[E|E]]; injection E; lia.
    - repeat split; try discriminate. intros [E|[E|E]]; discriminate.
    - repeat split; try discriminate. intros [E|[E|E]]; discriminate.
    - repeat split; try discriminate. intros [E|[E|E]]; discriminate. }
  split; intros e He.
  - unfold ChatEvent.init in He. inv_binds. injection He as <-. cbn. exact Hflags.
  - unfold PingEvent.init in He. inv_binds. injection He as <-. cbn.
    destruct Hflags as (? & ? & ? & ?). repeat split; tauto.
Qed.

Lemma audience_flags_witness :
  exists e, ChatEvent.init 160 (FInt 1) (FInt 2) [103; 103] = Ok e /\
    ChatEvent.to_all e = false /\ ChatEvent.to_allies e = true /\
    (ChatEvent.to_allies e && ChatEvent.to_observers e = false).
Proof.
  assert (Hex : exists e, ChatEvent.init 160 (FInt 1) (FInt 2) [103; 103] = Ok e /\
                  ChatEvent.to_all e = false /\ ChatEvent.to_allies e = true)
    by (vm_compute; eexists; repeat split; reflexivity).
  destruct Hex as (e & He & H1 & H2). exists e. do 3 (split; [assumption|]).
  destruct (audience_flags 160 (FInt 1) (FInt 2) (FInt 0) (FInt 0) [103; 103]) as [Hc _].
  exact (proj1 (proj2 (proj2 (Hc e He)))).
Defined.

(** ** Player statistics *)

Lemma stat_lt (l : list Z) (i : nat) :
  (i < length l)%nat -> PlayerStatsEvent.stat (FInts l) i = Ok (clamp (slot l i)).
Proof.
  intros H. unfold PlayerStatsEvent.stat. cbn [subscript].
  rewrite getitem_lt by assumption. reflexivity.
Qed.

Lemma stat_ge (l : list Z) (i : nat) :
  (length l <= i)%nat -> PlayerStatsEvent.stat (FInts l) i = Raise IndexError.
Proof.
  intros H. unfold PlayerStatsEvent.stat. cbn [subscript].
  rewrite (proj2 (getitem_IndexError l i) H). reflexivity.
Qed.

Lemma stat_Ok (stats : field) (i : nat) (s : Z) :
  PlayerStatsEvent.stat stats i = Ok s ->
  exists raw, subscript stats i = Ok raw /\ s = Z.max 0 raw.
Proof.
  unfold PlayerStatsEvent.stat, clamp. intros H. inv_binds. inv_Ok. eauto.
Qed.

(** Dividing a normal double by 4096.0 lowers its exponent by 12. *)
Lemma SFdiv_4096 (mx : positive) (ex : Z) :
  2 ^ 52 <= Zpos mx < 2 ^ 53 -> -1000 <= ex <= 900 ->
  SFdiv f64_prec f64_emax (S754_finite false mx ex) f4096 =
    S754_finite false mx (ex - 12).
Proof.
  intros Hm He. unfold SFdiv, f4096, SFdiv_core_binary.
  replace (Zdigits2 (Zpos mx)) with 53
    by (symmetry; simpl; apply digits2_pos_range; lia).
  change (Zdigits2 4503599627370496) with 53.
  replace (Z.min (fexp f64_prec f64_emax (53 + ex - (53 + -40))) (ex - -40))
    with (ex - 13) by (unfold fexp, emin, f64_prec, f64_emax; lia).
  replace (ex - -40 - (ex - 13)) with 53 by lia.
  cbv iota. rewrite Z.shiftl_mul_pow2 by lia.
  assert (Hq : Z.div_eucl (Zpos mx * 2 ^ 53) 4503599627370496 = (Zpos mx~0, 0)).
  { pose proof (Z.div_eucl_eq (Zpos mx * 2 ^ 53) 4503599627370496 ltac:(lia)) as E.
    pose proof (Z.mod_pos_bound (Zpos mx * 2 ^ 53) 4503599627370496 ltac:(lia)) as B.
    unfold Z.modulo in B.
    destruct (Z.div_eucl (Zpos mx * 2 ^ 53) 4503599627370496) as [q r].
    f_equal; lia. }
  rewrite Hq. cbn [xorb].
  change (new_location 4503599627370496 0) with loc_Exact.
  rewrite binary_round_aux_renorm.
  rewrite shr_fexp_one by (try lia; apply (digits2_pos_range (mx~0) 54); lia).
  cbn [shr_1 shr_record_of_loc shr_m loc_of_shr_record round_nearest_even].
  unfold renorm.
  rewrite shr_fexp_keep by (try lia; simpl; apply digits2_pos_range; lia).
  cbn [shr_record_of_loc shr_m].
  replace (ex - 13 + 1 <=? f64_emax - f64_prec) with true
    by (symmetry; apply Z.leb_le; unfold f64_emax, f64_prec; lia).
  f_equal. lia.
Qed.

Lemma food_exact (l : list Z) (i : nat) :
  (i < length l)%nat -> slot l i < 2 ^ 53 ->
  exists x, float_of_int (clamp (slot l i)) = Ok x /\
    PlayerStatsEvent.food (FInts l) i = Ok (lower_exponent 12 x).
Proof.
  intros Hi Hs. unfold PlayerStatsEvent.food. rewrite stat_lt by assumption.
  cbn [mbind result_bind]. unfold int_truediv_float, clamp.
  destruct (Z.max_spec 0 (slot l i)) as [[Hlt ->]|[Hge ->]].
  - destruct (slot l i) as [|p|p] eqn:E; try lia.
    pose proof (digits2_pos_bounds p) as Hd.
    set (d := Zpos (digits2_pos p)) in *.
    assert (Hd53 : 0 < d <= 53).
    { split; [subst d; lia|].
      destruct (Z_le_gt_dec d 53) as [|Hgt]; [assumption|exfalso].
      assert (2 ^ 53 <= 2 ^ (d - 1)) by (apply Z.pow_le_mono_r; lia). lia. }
    destruct (float_of_int_exact p) as (mx & Hx & _ & Hr); [lia|].
    fold d in Hx. rewrite Hx. eexists. split; [reflexivity|].
    cbn [mbind result_bind float_truediv f4096]. fold f4096.
    rewrite SFdiv_4096 by lia. reflexivity.
  - eexists. split; reflexivity.
Qed.

Lemma food_ge (l : list Z) (i : nat) :
  (length l <= i)%nat -> PlayerStatsEvent.food (FInts l) i = Raise IndexError.
Proof.
  intros H. unfold PlayerStatsEvent.food. rewrite stat_ge by assumption. reflexivity.
Qed.

Lemma lookup_total_bound (l : list Z) (i : nat) (b : Z) :
  Forall (fun x => x < b) l -> (i < length l)%nat -> slot l i < b.
Proof.
  intros Hall Hi. rewrite Forall_lookup in Hall.
  destruct (lookup_lt_is_Some_2 l i Hi) as [x Hx].
  unfold slot. rewrite (nth_lookup_Some _ _ 0 _ Hx). apply (Hall i). assumption.
Qed.

(** One read of [clamp(self.stats[i])]: past the end it raises and the
    constructor stops; otherwise the run goes on. *)
Ltac stat_step l i :=
  let H := fresh "Hlen" in
  destruct (le_lt_dec (length l) i) as [H|H];
  [ rewrite (stat_ge l i H); cbn [mbind result_bind]; try reflexivity; exfalso; lia
  | rewrite (stat_lt l i H); cbn [mbind result_bind] ].

Ltac food_step l i :=
  let H := fresh "Hlen" in
  destruct (le_lt_dec (length l) i) as [H|H];
  [ rewrite (food_ge l i H); cbn [mbind result_bind]; try reflexivity; exfalso; lia
  | let x := fresh "x" in let Hx := fresh "Hx" in let Hf := fresh "Hf" in
    destruct (food_exact l i H) as (x & Hx & Hf);
    [ eapply lookup_total_bound; eassumption
    | rewrite Hf; cbn [mbind result_bind] ] ].

Ltac run_33 l :=
stat_step l 0%nat;
stat_step l 1%nat;
stat_step l 2%nat;
stat_step l 3%nat;
stat_step l 4%nat;
stat_step l 5%nat;
stat_step l 6%nat;
stat_step l 7%nat;
stat_step l 8%nat;
stat_step l 9%nat;
stat_step l 10%nat;
stat_step l 11%nat;
stat_step l 12%nat;
stat_step l 13%nat;
stat_step l 14%nat;
stat_step l 15%nat;
stat_step l 16%nat;
stat_step l 17%nat;
stat_step l 18%nat;
stat_step l 19%nat;
stat_step l 20%nat;
stat_step l 21%nat;
stat_step l 22%nat;
stat_step l 23%nat;
stat_step l 24%nat;
stat_step l 25%nat;
stat_step l 26%nat;
stat_step l 27%nat;
stat_step l 28%nat;
food_step l 29%nat;
food_step l 30%nat;
stat_step l 31%nat;
stat_step l 32%nat.

Ltac run_ff l :=
  stat_step l 33%nat;
  stat_step l 34%nat;
  stat_step l 35%nat;
  stat_step l 36%nat;
  stat_step l 37%nat;
  stat_step l 38%nat.

(** X9: a stats vector of integers below 2^53 is accepted exactly when it is
    long enough: 33 slots below build 26490, 39 slots from build 26490 on (the
    friendly-fire slots are read only then); a shorter vector makes the
    constructor raise IndexError. *)
Theorem stats_slots_required (frames build : Z) (data : list field)
    (pid : field) (l : list Z) :
  data !! 0%nat = Some pid -> data !! 1%nat = Some (FInts l) ->
  Forall (fun x => x < 2 ^ 53) l ->
  (slots_read build <= length l)%nat /\
    (exists e, PlayerStatsEvent.init frames data build = Ok e) \/
  (length l < slots_read build)%nat /\
    PlayerStatsEvent.init frames data build = Raise IndexError.
Proof.
  intros D0 D1 Hall.
  destruct (le_lt_dec (slots_read build) (length l)) as [Hn|Hn];
    [left|right]; (split; [exact Hn|]);
    unfold PlayerStatsEvent.init; rewrite TrackerEvent_init_Ok;
    cbn [mbind result_bind];
    rewrite (proj2 (getfield_Ok data 0 _) D0), (proj2 (getfield_Ok data 1 _) D1);
    cbn [mbind result_bind];
    unfold PlayerStatsEvent.ff_stat; unfold slots_read in Hn;
    destruct (26490 <=? build).
  - run_33 l. run_ff l. eexists; reflexivity.
  - run_33 l. eexists; reflexivity.
  - run_33 l. run_ff l. exfalso; lia.
  - run_33 l. exfalso; lia.
Qed.

Lemma stats_slots_required_witness :
  (exists e, PlayerStatsEvent.init 160 [FInt 1; FInts (replicate 33 7)] 26489 = Ok e) /\
  PlayerStatsEvent.init 160 [FInt 1; FInts (replicate 33 7)] 26490 = Raise IndexError.
Proof.
  assert (Hall : Forall (fun x => x < 2 ^ 53) (replicate 33 7))
    by (apply Forall_replicate; lia).
  split.
  - destruct (stats_slots_required 160 26489 [FInt 1; FInts (replicate 33 7)]
                (FInt 1) (replicate 33 7) eq_refl eq_refl Hall) as [[_ H]|[H _]].
    + exact H.
    + vm_compute in H. lia.
  - destruct (stats_slots_required 160 26490 [FInt 1; FInts (replicate 33 7)]
                (FInt 1) (replicate 33 7) eq_refl eq_refl Hall) as [[H _]|[_ H]].
    + vm_compute in H. lia.
    + exact H.
Defined.

Ltac stats_inv He :=
  unfold PlayerStatsEvent.init in He; inv_binds; injection He as <-;
  repeat match goal with
  | H : PlayerStatsEvent.stat _ _ = Ok _ |- _ =>
      apply stat_Ok in H; destruct H as (? & ? & ->)
  end.

(** X7: whatever the raw statistics (negative values included), every
    integer field of a player-stats event, the category and grand totals
    among them, is non-negative, and so is every friendly-fire value that is
    present. *)
Theorem stats_nonnegative (frames build : Z) (data : list field)
    (e : PlayerStatsEvent.t) :
  PlayerStatsEvent.init frames data build = Ok e ->
  Forall (fun v => 0 <= v) (numeric_fields e) /\
  Forall (fun o => forall v, o = Some v -> 0 <= v) (ff_fields e).
Proof.
  intros He. stats_inv He.
  repeat match goal with
  | H : PlayerStatsEvent.ff_stat _ _ _ = Ok _ |- _ =>
      apply ff_stat_Ok in H; destruct H as [? ?]
  end.
  unfold numeric_fields, ff_fields. cbn. split.
  - repeat (apply Forall_cons_2; [lia|]). apply Forall_nil_2.
  - destruct (Z_lt_le_dec build 26490) as [Hb|Hb].
    + repeat match goal with
      | H : build < 26490 -> _ = None |- _ => rewrite (H Hb); clear H
      end.
      repeat (apply Forall_cons_2; [intros ? Hsome; discriminate Hsome|]).
      apply Forall_nil_2.
    + repeat match goal with
      | H : 26490 <= build -> exists s, _ |- _ =>
          destruct (H Hb) as (? & _ & ->); clear H
      end.
      repeat (apply Forall_cons_2; [intros ? Hsome; injection Hsome as <-; lia|]).
      apply Forall_nil_2.
Qed.

Lemma stats_nonnegative_witness :
  exists e, PlayerStatsEvent.init 160 [FInt 1; FInts (replicate 39 (-7))] 26490 = Ok e /\
    Forall (fun v => 0 <= v) (numeric_fields e).
Proof.
  assert (Hex : exists e,
    PlayerStatsEvent.init 160 [FInt 1; FInts (replicate 39 (-7))] 26490 = Ok e)
    by (vm_compute; eexists; reflexivity).
  destruct Hex as [e He]. exists e. split; [exact He|].
  exact (proj1 (stats_nonnegative _ _ _ _ He)).
Defined.






(** ** Unit events: record shape and errors *)

Lemma getfield_lt_Ok {A : Type} (data : list A) (i : nat) :
  (i < length data)%nat -> exists a, data !! i = Some a /\ getfield data i = Ok a.
Proof.
  intros H. destruct (lookup_lt_is_Some_2 data i H) as [a Ha].
  exists a. split; [assumption | apply getfield_Ok; assumption].
Qed.

Lemma getfield_is_Some {A : Type} (data : list A) (i : nat) :
  is_Some (data !! i) -> exists a, data !! i = Some a /\ getfield data i = Ok a.
Proof. intros [a Ha]. exists a. split; [assumption | apply getfield_Ok; assumption]. Qed.

(** X11: a unit-died record with integer index, recycle and coordinates that
    lacks one of the killer's unit fields 5 and 6 is accepted below build
    27950, where these fields are not read, and makes the constructor raise
    KeyError from build 27950 on. In the accepted event the deprecated
    [killer_pid] and [killing_player_id] are both field 2 of the record. *)
Theorem died_record_shape (frames build index recycle rx ry : Z) (data : list field) :
  data !! 0%nat = Some (FInt index) -> data !! 1%nat = Some (FInt recycle) ->
  is_Some (data !! 2%nat) ->
  data !! 3%nat = Some (FInt rx) -> data !! 4%nat = Some (FInt ry) ->
  data !! 5%nat = None \/ data !! 6%nat = None ->
  (build < 27950 ->
     exists e, UnitDiedEvent.init frames data build = Ok e /\
       UnitDiedEvent.killer_pid e = UnitDiedEvent.killing_player_id e /\
       data !! 2%nat = Some (UnitDiedEvent.killing_player_id e)) /\
  (27950 <= build -> UnitDiedEvent.init frames data build = Raise KeyError).
Proof.
  intros D0 D1 H2 D3 D4 Hmiss.
  destruct (getfield_is_Some data 2 H2) as (d2 & D2 & G2).
  unfold UnitDiedEvent.init. rewrite TrackerEvent_init_Ok.
  rewrite (proj2 (getfield_Ok data 0 _) D0), (proj2 (getfield_Ok data 1 _) D1), G2,
    (proj2 (getfield_Ok data 3 _) D3), (proj2 (getfield_Ok data 4 _) D4).
  cbn [mbind result_bind py_lshift py_or].
  split; intros Hb.
  - replace (build <? 27950) with true by (symmetry; apply Z.ltb_lt; lia).
    cbn [mbind result_bind py_mul]. eexists. split; [reflexivity|]. cbn. auto.
  - replace (build <? 27950) with false by (symmetry; apply Z.ltb_ge; lia).
    unfold UnitDiedEvent.killer_fields, getfield.
    destruct (data !! 5%nat) as [d5|]; [|reflexivity].
    destruct Hmiss as [H5|H6]; [discriminate|]. rewrite H6. reflexivity.
Qed.

Lemma died_record_shape_witness :
  (exists e, UnitDiedEvent.init 16 [FInt 5; FInt 7; FInt 2; FInt 10; FInt 20] 27949 = Ok e) /\
  UnitDiedEvent.init 16 [FInt 5; FInt 7; FInt 2; FInt 10; FInt 20] 27950 = Raise KeyError /\
  UnitDiedEvent.init 16 [FInt 5; FInt 7; FInt 2; FInt 10; FInt 20; FInt 9] 27950 = Raise KeyError.
Proof.
  destruct (died_record_shape 16 27949 5 7 10 20 [FInt 5; FInt 7; FInt 2; FInt 10; FInt 20]
              eq_refl eq_refl ltac:(eexists; reflexivity) eq_refl eq_refl
              ltac:(left; reflexivity)) as [Hold _].
  destruct (died_record_shape 16 27950 5 7 10 20 [FInt 5; FInt 7; FInt 2; FInt 10; FInt 20]
              eq_refl eq_refl ltac:(eexists; reflexivity) eq_refl eq_refl
              ltac:(left; reflexivity)) as [_ Hnew].
  destruct (died_record_shape 16 27950 5 7 10 20
              [FInt 5; FInt 7; FInt 2; FInt 10; FInt 20; FInt 9]
              eq_refl eq_refl ltac:(eexists; reflexivity) eq_refl eq_refl
              ltac:(right; reflexivity)) as [_ Hsix].
  split; [|split].
  - destruct (Hold ltac:(lia)) as (e & He & _). exists e. exact He.
  - exact (Hnew ltac:(lia)).
  - exact (Hsix ltac:(lia)).
Defined.

(** X12: fresh from its constructor an event has no unit attached, so every
    accessor that goes through [self.unit] raises AttributeError: [player],
    [pid], [isCounted] and [buildingDeath] of a unit-died event, [player] and
    [pid] of a unit-done event, [pid] of a unit-type-change event and
    [isCounted] of a unit-born event; the [pid] and [player] of born and init
    events read stored fields and do not raise. *)
Theorem unresolved_accessors (frames build : Z) (data : list field) :
  (forall e, UnitDiedEvent.init frames data build = Ok e ->
     UnitDiedEvent.player e = Raise AttributeError /\
     UnitDiedEvent.pid e = Raise AttributeError /\
     UnitDiedEvent.isCounted e = Raise AttributeError /\
     UnitDiedEvent.buildingDeath e = Raise AttributeError) /\
  (forall e, UnitDoneEvent.init frames data build = Ok e ->
     UnitDoneEvent.player e = Raise AttributeError /\
     UnitDoneEvent.pid e = Raise AttributeError) /\
  (forall e, UnitTypeChangeEvent.init frames data build = Ok e ->
     UnitTypeChangeEvent.pid e = Raise AttributeError) /\
  (forall e, UnitBornEvent.init frames data build = Ok e ->
     UnitBornEvent.isCounted e = Raise AttributeError /\
     UnitBornEvent.player e = None /\
     data !! 3%nat = Some (UnitBornEvent.pid e)) /\
  (forall e, UnitInitEvent.init frames data build = Ok e ->
     UnitInitEvent.isCounted e = true /\
     UnitInitEvent.player e = None /\
     data !! 4%nat = Some (UnitInitEvent.pid e)).
Proof.
  split; [|split; [|split; [|split]]]; intros e He.
  - unfold UnitDiedEvent.init in He. inv_binds. destruct_pairs.
    injection He as <-. repeat split; reflexivity.
  - unfold UnitDoneEvent.init in He. inv_binds. injection He as <-.
    repeat split; reflexivity.
  - unfold UnitTypeChangeEvent.init in He. inv_binds. injection He as <-. reflexivity.
  - unfold UnitBornEvent.init in He. inv_binds. destruct_pairs. inv_Ok.
    cbn. repeat split; try reflexivity; assumption.
  - unfold UnitInitEvent.init in He. inv_binds. destruct_pairs. inv_Ok.
    cbn. repeat split; try reflexivity; assumption.
Qed.

(** X13: a unit-done record decodes exactly when its first two fields are
    integers: then the event holds the composed unit id and no unit; a record
    that lacks field 0 or field 1 makes the constructor raise KeyError, and a
    record whose field 0 or field 1 is not an integer makes it raise
    TypeError. *)
Theorem done_event_decodes (frames build : Z) (data : list field) :
  (data !! 0%nat = None \/ data !! 1%nat = None ->
     UnitDoneEvent.init frames data build = Raise KeyError) /\
  (forall a b, data !! 0%nat = Some a -> data !! 1%nat = Some b ->
     match a, b with
     | FInt i, FInt r =>
         exists e, UnitDoneEvent.init frames data build = Ok e /\
           UnitDoneEvent.unit_id_index e = FInt i /\
           UnitDoneEvent.unit_id_recycle e = FInt r /\
           UnitDoneEvent.unit_id e = Z.lor (Z.shiftl i 18) r /\
           UnitDoneEvent.unit e = None
     | _, _ => UnitDoneEvent.init frames data build = Raise TypeError
     end).
Proof.
  unfold UnitDoneEvent.init. rewrite TrackerEvent_init_Ok.
  cbn [mbind result_bind]. split.
  - intros Hmiss. unfold getfield.
    destruct (data !! 0%nat) as [d0|]; [|reflexivity].
    destruct Hmiss as [H0|H1]; [discriminate|]. rewrite H1. reflexivity.
  - intros a b D0 D1.
    rewrite (proj2 (getfield_Ok data 0 _) D0), (proj2 (getfield_Ok data 1 _) D1).
    destruct a, b; cbn; try reflexivity.
    eexists. repeat split; reflexivity.
Qed.

Lemma done_event_decodes_witness :
  UnitDoneEvent.init 16 [FInt 5] 27950 = Raise KeyError /\
  UnitDoneEvent.init 16 [FInt 5; FNone] 27950 = Raise TypeError /\
  (exists e, UnitDoneEvent.init 16 sample_done 27950 = Ok e /\
     UnitDoneEvent.unit_id e = 1310727).
Proof.
  destruct (done_event_decodes 16 27950 [FInt 5]) as [Hshort _].
  destruct (done_event_decodes 16 27950 [FInt 5; FNone]) as [_ Hnone].
  destruct (done_event_decodes 16 27950 sample_done) as [_ Hok].
  split; [exact (Hshort ltac:(right; reflexivity))|].
  split; [exact (Hnone (FInt 5) FNone eq_refl eq_refl)|].
  destruct (Hok (FInt 5) (FInt 7) eq_refl eq_refl) as (e & He & _ & _ & Hid & _).
  exists e. split; [exact He | exact Hid].
Defined.

(** X14: the born and the init constructor decode a record alike: one fails
    exactly when the other does, with the same exception, and from the same
    record and build they store the same frame, second, identity, type name,
    players and coordinates. *)
Theorem born_init_agree (frames build : Z) (data : list field) :
  (forall ex, UnitBornEvent.init frames data build = Raise ex <->
              UnitInitEvent.init frames data build = Raise ex) /\
  (forall eb ei,
     UnitBornEvent.init frames data build = Ok eb ->
     UnitInitEvent.init frames data build = Ok ei ->
     TrackerEvent.frame (UnitBornEvent.base eb) = TrackerEvent.frame (UnitInitEvent.base ei) /\
     TrackerEvent.second (UnitBornEvent.base eb) = TrackerEvent.second (UnitInitEvent.base ei) /\
     UnitBornEvent.unit_id eb = UnitInitEvent.unit_id ei /\
     UnitBornEvent.unit_type_name eb = UnitInitEvent.unit_type_name ei /\
     UnitBornEvent.control_pid eb = UnitInitEvent.control_pid ei /\
     UnitBornEvent.upkeep_pid eb = UnitInitEvent.upkeep_pid ei /\
     UnitBornEvent.location eb = UnitInitEvent.location ei).
Proof.
  unfold UnitBornEvent.init, UnitInitEvent.init. rewrite !TrackerEvent_init_Ok.
  cbn [mbind result_bind].
  repeat match goal with
  | |- context [mbind _ ?m] =>
      lazymatch m with
      | Ok _ => fail
      | Raise _ => fail
      | _ => destruct m; cbn [mbind result_bind]
      end
  end;
  try (split; [intros ex; split; intros H; injection H as <-; reflexivity
              | intros eb ei H; discriminate H]).
  destruct_pairs. split; [intros ex; split; intros H; discriminate H|].
  intros eb ei Hb Hi. injection Hb as <-. injection Hi as <-. cbn.
  repeat split; reflexivity.
Qed.

(** ** Unit positions *)

Lemma positions_entries (frames first build : Z) (data : list field)
    (items : field) (k : nat) :
  data !! 0%nat = Some (FInt first) -> data !! 1%nat = Some items ->
  py_len items = Ok (3 * k)%nat ->
  exists e, UnitPositionsEvent.init frames data build = Ok e /\
    UnitPositionsEvent.first_unit_index e = FInt first /\
    UnitPositionsEvent.positions e = (entry build first (elems items) <$> seq 0 k).
Proof.
  intros D0 D1 Hlen. unfold UnitPositionsEvent.init.
  rewrite TrackerEvent_init_Ok. cbn [mbind result_bind].
  rewrite (proj2 (getfield_Ok data 0 _) D0), (proj2 (getfield_Ok data 1 _) D1).
  cbn [mbind result_bind]. rewrite Hlen. cbn [mbind result_bind].
  replace (3 * k)%nat with (3 * k + 0)%nat by lia.
  rewrite py_range_3 by lia. cbn [Nat.eqb].
  pose proof (loop_full build first items (3 * k) k 0 []) as Hl.
  cbn [delta_sum] in Hl. rewrite Z.add_0_r in Hl.
  rewrite Hl by (assumption || lia).
  cbn [mbind result_bind]. eexists. repeat split; reflexivity.
Qed.

Lemma delta_sum_mono (items : list Z) (i j : nat) :
  Forall (fun d => 0 <= d) items -> (i <= j)%nat ->
  delta_sum items i <= delta_sum items j.
Proof.
  intros Hall Hij. induction Hij as [|j Hij IH]; [lia|].
  cbn [delta_sum].
  assert (0 <= slot items (3 * j)%nat); [|lia].
  destruct (le_lt_dec (length items) (3 * j)) as [Hge|Hlt].
  - unfold slot. rewrite nth_overflow by assumption. reflexivity.
  - destruct (lookup_lt_is_Some_2 items (3 * j) Hlt) as [x Hx].
    unfold slot. rewrite (nth_lookup_Some _ _ 0 _ Hx).
    rewrite Forall_lookup in Hall. apply (Hall (3 * j)%nat). assumption.
Qed.

(** X15: the positions decoded below build 27950 are the positions decoded
    from build 27950 on with both coordinates multiplied by 4; unit indexes
    are the same. *)
Theorem positions_scale (frames first old new : Z) (data : list field)
    (items : field) (k : nat) :
  data !! 0%nat = Some (FInt first) -> data !! 1%nat = Some items ->
  py_len items = Ok (3 * k)%nat ->
  old < 27950 -> 27950 <= new ->
  exists eo en,
    UnitPositionsEvent.init frames data old = Ok eo /\
    UnitPositionsEvent.init frames data new = Ok en /\
    UnitPositionsEvent.positions eo =
      (fun p => (p.1, (p.2.1 * 4, p.2.2 * 4))) <$> UnitPositionsEvent.positions en.
Proof.
  intros D0 D1 Hlen Ho Hn.
  destruct (positions_entries frames first old data items k D0 D1 Hlen)
    as (eo & Heo & _ & Po).
  destruct (positions_entries frames first new data items k D0 D1 Hlen)
    as (en & Hen & _ & Pn).
  exists eo, en. split; [exact Heo|]. split; [exact Hen|].
  rewrite Po, Pn, <- list_fmap_compose. apply list_fmap_ext.
  intros i j _. unfold compose, entry.
  replace (old <? 27950) with true by (symmetry; apply Z.ltb_lt; lia).
  replace (new <? 27950) with false by (symmetry; apply Z.ltb_ge; lia).
  cbn. rewrite !Z.mul_1_r. reflexivity.
Qed.

Lemma positions_scale_witness :
  exists eo en,
    UnitPositionsEvent.init 16 [FInt 100; FInts [5; 10; 20; 3; 15; 25]] 27949 = Ok eo /\
    UnitPositionsEvent.init 16 [FInt 100; FInts [5; 10; 20; 3; 15; 25]] 27950 = Ok en /\
    UnitPositionsEvent.positions eo =
      (fun p => (p.1, (p.2.1 * 4, p.2.2 * 4))) <$> UnitPositionsEvent.positions en.
Proof.
  exact (positions_scale 16 100 27949 27950 [FInt 100; FInts [5; 10; 20; 3; 15; 25]]
           (FInts [5; 10; 20; 3; 15; 25]) 2 eq_refl eq_refl eq_refl
           ltac:(lia) ltac:(lia)).
Defined.

(** X16: with an empty item sequence the constructor accepts any first unit
    index and yields no positions; with a first unit index that is not an
    integer and a non-empty sequence it raises TypeError at the first
    [unit_index += ...], before any coordinate is read. *)
Theorem positions_edge_cases (frames build : Z) (data : list field)
    (first items : field) (n : nat) :
  data !! 0%nat = Some first -> data !! 1%nat = Some items ->
  py_len items = Ok n ->
  (n = 0%nat ->
     exists e, UnitPositionsEvent.init frames data build = Ok e /\
       UnitPositionsEvent.positions e = []) /\
  (n <> 0%nat -> (forall z, first <> FInt z) ->
     UnitPositionsEvent.init frames data build = Raise TypeError).
Proof.
  intros D0 D1 Hlen. unfold UnitPositionsEvent.init.
  rewrite TrackerEvent_init_Ok. cbn [mbind result_bind].
  rewrite (proj2 (getfield_Ok data 0 _) D0), (proj2 (getfield_Ok data 1 _) D1).
  cbn [mbind result_bind]. rewrite Hlen. cbn [mbind result_bind].
  split.
  - intros ->. cbn. eexists. split; reflexivity.
  - intros Hn Hfirst.
    assert (Hr : exists rest, py_range 0 n 3 = 0%nat :: rest).
    { unfold py_range. destruct ((n - 0 + (3 - 1)) / 3)%nat eqn:E.
      - apply Nat.div_small_iff in E; lia.
      - cbn. eauto. }
    destruct Hr as [rest ->]. cbn [UnitPositionsEvent.loop UnitPositionsEvent.step].
    rewrite !(subscript_elems _ _ _ Hlen).
    rewrite (getitem_lt (elems items) 0)
      by (rewrite (py_len_elems _ _ Hlen); lia).
    cbn [mbind result_bind].
    destruct first as [z| | |]; [destruct (Hfirst z eq_refl)| | |]; reflexivity.
Qed.

Lemma positions_edge_cases_witness :
  (exists e, UnitPositionsEvent.init 16 [FBytes [x61]; FInts []] 27950 = Ok e /\
     UnitPositionsEvent.positions e = []) /\
  UnitPositionsEvent.init 16 [FBytes [x61]; FInts [5]] 27950 = Raise TypeError.
Proof.
  split.
  - exact (proj1 (positions_edge_cases 16 27950 [FBytes [x61]; FInts []]
             (FBytes [x61]) (FInts []) 0 eq_refl eq_refl eq_refl) eq_refl).
  - apply (proj2 (positions_edge_cases 16 27950 [FBytes [x61]; FInts [5]]
             (FBytes [x61]) (FInts [5]) 1 eq_refl eq_refl eq_refl)).
    + discriminate.
    + intros z. discriminate.
Defined.

(** X17: when no index delta is negative the decoded unit indexes never
    decrease along the position list, none is below the first unit index,
    and the last one is the first unit index plus the sum of all deltas. *)
Theorem positions_indexes_sorted (frames first build : Z) (data : list field)
    (items : list Z) (k : nat) :
  data !! 0%nat = Some (FInt first) -> data !! 1%nat = Some (FInts items) ->
  length items = (3 * k)%nat ->
  Forall (fun d => 0 <= d) items ->
  exists e, UnitPositionsEvent.init frames data build = Ok e /\
    (forall i j u v c d, (i <= j)%nat ->
       UnitPositionsEvent.positions e !! i = Some (FInt u, c) ->
       UnitPositionsEvent.positions e !! j = Some (FInt v, d) ->
       first <= u <= v) /\
    (forall c, last (UnitPositionsEvent.positions e) = Some c ->
       c.1 = FInt (first + delta_sum items k)).
Proof.
  intros D0 D1 Hlen Hall.
  destruct (positions_entries frames first build data (FInts items) k D0 D1)
    as (e & He & _ & Pe); [cbn; f_equal; exact Hlen|].
  exists e. split; [exact He|]. rewrite Pe. cbn [elems]. split.
  - intros i j u v c d Hij Hi Hj.
    rewrite list_lookup_fmap in Hi, Hj.
    destruct (seq 0 k !! i) as [i'|] eqn:Ei; [|discriminate].
    destruct (seq 0 k !! j) as [j'|] eqn:Ej; [|discriminate].
    apply lookup_seq in Ei, Ej. destruct Ei as [-> _]. destruct Ej as [-> _].
    cbn [fmap option_fmap option_map] in Hi, Hj. unfold entry in Hi, Hj.
    injection Hi as <- _. injection Hj as <- _.
    pose proof (delta_sum_mono items 0 (S (0 + i)) Hall ltac:(lia)) as H0.
    pose proof (delta_sum_mono items (S (0 + i)) (S (0 + j)) Hall ltac:(lia)).
    change (delta_sum items 0) with 0 in H0.
    cbn [delta_sum Nat.add Nat.mul] in H0, H |- *. lia.
  - intros c Hc. destruct k as [|k].
    + discriminate.
    + rewrite seq_S, fmap_app in Hc. cbn [fmap list_fmap] in Hc.
      rewrite last_snoc in Hc. injection Hc as <-. reflexivity.
Qed.

Lemma positions_indexes_sorted_witness :
  exists e, UnitPositionsEvent.init 16 [FInt 100; FInts [5; 10; 20; 3; 15; 25]] 27950 = Ok e /\
    forall c, last (UnitPositionsEvent.positions e) = Some c -> c.1 = FInt 108.
Proof.
  destruct (positions_indexes_sorted 16 100 27950 [FInt 100; FInts [5; 10; 20; 3; 15; 25]]
              [5; 10; 20; 3; 15; 25] 2 eq_refl eq_refl eq_refl)
    as (e & He & _ & Hlast).
  - repeat (apply Forall_cons_2; [lia|]). apply Forall_nil_2.
  - exists e. split; [exact He | exact Hlast].
Defined.

(** ** Other constructors *)

(** X18: a player-setup record is accepted exactly when it has the four
    fields 0 to 3, whatever their types: the event stores them as pid, type,
    uid and sid, and a record that lacks one of the four makes the
    constructor raise KeyError. *)
Theorem player_setup_shape (frames build : Z) (data : list field) :
  ((forall i, (i < 4)%nat -> is_Some (data !! i)) ->
     exists e, PlayerSetupEvent.init frames data build = Ok e /\
       data !! 0%nat = Some (PlayerSetupEvent.pid e) /\
       data !! 1%nat = Some (PlayerSetupEvent.type e) /\
       data !! 2%nat = Some (PlayerSetupEvent.uid e) /\
       data !! 3%nat = Some (PlayerSetupEvent.sid e)) /\
  ((exists i, (i < 4)%nat /\ data !! i = None) ->
     PlayerSetupEvent.init frames data build = Raise KeyError).
Proof.
  unfold PlayerSetupEvent.init. rewrite TrackerEvent_init_Ok.
  cbn [mbind result_bind]. split.
  - intros Hall.
    destruct (getfield_is_Some data 0 (Hall 0%nat ltac:(lia))) as (d0 & D0 & ->).
    destruct (getfield_is_Some data 1 (Hall 1%nat ltac:(lia))) as (d1 & D1 & ->).
    destruct (getfield_is_Some data 2 (Hall 2%nat ltac:(lia))) as (d2 & D2 & ->).
    destruct (getfield_is_Some data 3 (Hall 3%nat ltac:(lia))) as (d3 & D3 & ->).
    cbn [mbind result_bind]. eexists. split; [reflexivity|]. cbn. auto.
  - intros (i & Hi & Hnone). unfold getfield.
    destruct (data !! 0%nat) as [d0|] eqn:E0; [|reflexivity].
    destruct (data !! 1%nat) as [d1|] eqn:E1; [|reflexivity].
    destruct (data !! 2%nat) as [d2|] eqn:E2; [|reflexivity].
    destruct (data !! 3%nat) as [d3|] eqn:E3; [|reflexivity].
    exfalso.
    destruct i as [|[|[|[|i]]]]; [congruence | congruence | congruence | congruence | lia].
Qed.

Lemma player_setup_shape_witness :
  (exists e, PlayerSetupEvent.init 16 [FInt 1; FInt 1; FInt 0; FInt 0] 27950 = Ok e /\
     PlayerSetupEvent.pid e = FInt 1) /\
  PlayerSetupEvent.init 16 [FInt 1; FInt 1; FInt 0] 27950 = Raise KeyError.
Proof.
  destruct (player_setup_shape 16 27950 [FInt 1; FInt 1; FInt 0; FInt 0]) as [Hfull _].
  destruct (player_setup_shape 16 27950 [FInt 1; FInt 1; FInt 0]) as [_ Hshort].
  split.
  - destruct Hfull as (e & He & Hp & _).
    + intros i Hi. destruct i as [|[|[|[|i]]]]; try (eexists; reflexivity). lia.
    + exists e. split; [exact He|]. simpl in Hp. congruence.
  - apply Hshort. exists 3%nat. split; [lia | reflexivity].
Defined.

Lemma utf8_decode_ascii (b : list byte) :
  Forall (fun c => byte_to_Z c < 128) b -> utf8_decode b = Ok (byte_to_Z <$> b).
Proof.
  induction 1 as [|c b Hc _ IH]; [reflexivity|].
  cbn [utf8_decode]. replace (byte_to_Z c <? 128) with true
    by (symmetry; apply Z.ltb_lt; assumption).
  rewrite IH. reflexivity.
Qed.

(** X19: a unit-born record whose index, recycle and coordinates are
    integers and whose type name is ASCII always decodes; the stored type name
    is the name's bytes as code points and the id is
    [(index << 18) | recycle]. *)
Theorem born_event_decodes (frames build index recycle rx ry : Z)
    (data : list field) (name : list byte) :
  data !! 0%nat = Some (FInt index) -> data !! 1%nat = Some (FInt recycle) ->
  data !! 2%nat = Some (FBytes name) ->
  data !! 5%nat = Some (FInt rx) -> data !! 6%nat = Some (FInt ry) ->
  Forall (fun c => byte_to_Z c < 128) name ->
  exists e, UnitBornEvent.init frames data build = Ok e /\
    UnitBornEvent.unit_type_name e = (byte_to_Z <$> name) /\
    UnitBornEvent.unit_id e = Z.lor (Z.shiftl index 18) recycle /\
    UnitBornEvent.unit e = None.
Proof.
  intros D0 D1 D2 D5 D6 Hname.
  pose proof (lookup_lt_Some _ _ _ D6) as Hlen.
  destruct (getfield_lt_Ok data 3 ltac:(lia)) as (d3 & _ & G3).
  destruct (getfield_lt_Ok data 4 ltac:(lia)) as (d4 & _ & G4).
  unfold UnitBornEvent.init. rewrite TrackerEvent_init_Ok.
  rewrite (proj2 (getfield_Ok data 0 _) D0), (proj2 (getfield_Ok data 1 _) D1),
    (proj2 (getfield_Ok data 2 _) D2), G3, G4,
    (proj2 (getfield_Ok data 5 _) D5), (proj2 (getfield_Ok data 6 _) D6).
  cbn [mbind result_bind py_lshift py_or decode_utf8].
  rewrite (utf8_decode_ascii name Hname). cbn [mbind result_bind].
  destruct (build <? 27950); cbn [mbind result_bind py_mul];
    eexists; repeat split; reflexivity.
Qed.

Lemma born_event_decodes_witness :
  exists e, UnitBornEvent.init 16 sample_born 27950 = Ok e /\
    UnitBornEvent.unit_type_name e = [77; 97; 114; 105; 110; 101] /\
    UnitBornEvent.unit_id e = 1310727.
Proof.
  destruct (born_event_decodes 16 27950 5 7 10 20 sample_born
              [x4d; x61; x72; x69; x6e; x65]
              eq_refl eq_refl eq_refl eq_refl eq_refl) as (e & He & Hn & Hid & _).
  - repeat (apply Forall_cons_2; [vm_compute; reflexivity|]). apply Forall_nil_2.
  - exists e. repeat split; assumption.
Defined.

(** X20: for a died event whose unit has been attached, the death of a
    Broodling is never counted, the death of a Drone, Probe, SCV or burrowed
    Lurker is always counted, and any other death is counted exactly when the
    unit belongs to the army; [isCounted] is the same answer. *)
Theorem countable_deaths (e : UnitDiedEvent.t) (u : Unit) :
  UnitDiedEvent.unit e = Some u ->
  UnitDiedEvent.isCounted e = UnitDiedEvent.countableUnitDeath e /\
  (Unit_name u = "Broodling"%string ->
     UnitDiedEvent.countableUnitDeath e = Ok false) /\
  (In (Unit_name u) ["LurkerBurrowed"; "Drone"; "Probe"; "SCV"]%string ->
     UnitDiedEvent.countableUnitDeath e = Ok true) /\
  (~ In (Unit_name u) ["Broodling"; "LurkerBurrowed"; "Drone"; "Probe"; "SCV"]%string ->
     UnitDiedEvent.countableUnitDeath e = Ok (Unit_is_army u)).
Proof.
  intros Hu. unfold UnitDiedEvent.isCounted, UnitDiedEvent.countableUnitDeath.
  rewrite Hu. unfold UnitDiedEvent.name_in. cbn [existsb].
  split; [reflexivity|]. split; [|split].
  - intros ->. cbn. rewrite andb_false_r. reflexivity.
  - intros [<-|[<-|[<-|[<-|[]]]]]; cbn; rewrite orb_true_r; reflexivity.
  - intros Hn.
    repeat match goal with
    | |- context [String.eqb (Unit_name u) ?s] =>
        destruct (String.eqb_spec (Unit_name u) s) as [Heq|_];
        [exfalso; apply Hn; rewrite Heq; cbn; tauto|]
    end.
    cbn. rewrite !orb_false_r, andb_true_r. reflexivity.
Qed.

Lemma countable_deaths_witness :
  UnitDiedEvent.countableUnitDeath sample_drone_death = Ok true.
Proof.
  refine (proj1 (proj2 (proj2
            (countable_deaths sample_drone_death sample_drone eq_refl))) _).
  cbn. tauto.
Defined.

(** X21: from build 27950 on, a died record whose killer index is [None] or
    0 decodes whatever its killer recycle field holds: the killer id is left
    unset and nothing is shifted or or-ed; the coordinates are stored as they
    came. *)
Theorem absent_killer_decodes (frames build index recycle : Z) (data : list field)
    (ki kr fx fy : field) :
  data !! 0%nat = Some (FInt index) -> data !! 1%nat = Some (FInt recycle) ->
  data !! 3%nat = Some fx -> data !! 4%nat = Some fy ->
  data !! 5%nat = Some ki -> data !! 6%nat = Some kr ->
  ki = FNone \/ ki = FInt 0 ->
  27950 <= build ->
  exists e, UnitDiedEvent.init frames data build = Ok e /\
    UnitDiedEvent.killing_unit_index e = Some ki /\
    UnitDiedEvent.killing_unit_recycle e = Some kr /\
    UnitDiedEvent.killing_unit_id e = None /\
    UnitDiedEvent.location e = (fx, fy).
Proof.
  intros D0 D1 D3 D4 D5 D6 Hki Hb.
  pose proof (lookup_lt_Some _ _ _ D6) as Hlen.
  destruct (getfield_lt_Ok data 2 ltac:(lia)) as (d2 & _ & G2).
  unfold UnitDiedEvent.init, UnitDiedEvent.killer_fields.
  rewrite TrackerEvent_init_Ok.
  rewrite (proj2 (getfield_Ok data 0 _) D0), (proj2 (getfield_Ok data 1 _) D1), G2,
    (proj2 (getfield_Ok data 3 _) D3), (proj2 (getfield_Ok data 4 _) D4),
    (proj2 (getfield_Ok data 5 _) D5), (proj2 (getfield_Ok data 6 _) D6).
  replace (build <? 27950) with false by (symmetry; apply Z.ltb_ge; lia).
  cbn [mbind result_bind py_lshift py_or].
  destruct Hki as [-> | ->]; cbn [truthy Z.eqb negb mbind result_bind];
    eexists; repeat split; reflexivity.
Qed.

Lemma absent_killer_decodes_witness :
  exists e,
    UnitDiedEvent.init 16 [FInt 5; FInt 7; FNone; FInt 10; FInt 20; FNone; FNone] 27950
      = Ok e /\
    UnitDiedEvent.killing_unit_id e = None.
Proof.
  destruct (absent_killer_decodes 16 27950 5 7
              [FInt 5; FInt 7; FNone; FInt 10; FInt 20; FNone; FNone]
              FNone FNone (FInt 10) (FInt 20)
              eq_refl eq_refl eq_refl eq_refl eq_refl eq_refl
              (or_introl eq_refl) ltac:(lia))
    as (e & He & _ & _ & Hid & _).
  exists e. split; assumption.
Defined.
